(** * Lender matching platform: the eligibility evaluation orchestrator

  A shallow embedding of [backend/app/services/eligibility_service.py],
  of the DTOs it builds ([backend/app/dto/loan_application.py]) and of the
  two routes that call it ([backend/app/api/routes/application_routes.py]),
  followed by the properties of the fan-out, the response cleaning, the
  confidence adjustment, the partition and the ranking.

  Python values are modelled dynamically ([pyval]); [str] is a sequence of
  code points; [float] is IEEE binary64, as [spec_float]; a [dict] with
  string keys is a [gmap]; a raised exception is the [Raise] case of
  [result]. *)

From Stdlib Require Import ZArith NArith List String Ascii Bool Lia.
From Stdlib Require Import Permutation Sorted.
From Stdlib Require Import Floats.
From stdpp Require Import base option list gmap.

Set Warnings "-register-all,-inexact-float".
#[local] Open Scope Z_scope.

(** ** Python [str] *)

Module Str.

(** A [str] is a sequence of Unicode code points. *)
Definition text : Type := list N.

(** A literal of the source, spelled in ASCII. *)
Definition txt (s : string) : text := List.map N_of_ascii (list_ascii_of_string s).

(** The characters [str.strip()] removes when called without argument
    (CPython's [Py_UNICODE_ISSPACE]). *)
Definition isspace (c : N) : bool :=
  ((9 <=? c) && (c <=? 13) || (28 <=? c) && (c <=? 32) || (c =? 133) || (c =? 160)
   || (c =? 5760) || (8192 <=? c) && (c <=? 8202) || (c =? 8232) || (c =? 8233)
   || (c =? 8239) || (c =? 8287) || (c =? 12288))%N.

Fixpoint lstrip (s : text) : text :=
  match s with
  | c :: rest => if isspace c then lstrip rest else s
  | [] => []
  end.

Definition rstrip (s : text) : text := rev (lstrip (rev s)).

Definition strip (s : text) : text := rstrip (lstrip s).

(** [s.startswith(p)] *)
Fixpoint startswith (s p : text) {struct p} : bool :=
  match p, s with
  | [], _ => true
  | a :: p', b :: s' => (a =? b)%N && startswith s' p'
  | _ :: _, [] => false
  end.

(** [s.endswith(p)] *)
Definition endswith (s p : text) : bool := startswith (rev s) (rev p).

(** [s[n:]] *)
Definition slice_from (n : nat) (s : text) : text := drop n s.

(** [s[:-n]] for [n > 0] *)
Definition slice_to_minus (n : nat) (s : text) : text := take (length s - n) s.

Fixpoint eqb (s t : text) : bool :=
  match s, t with
  | [], [] => true
  | a :: s', b :: t' => (a =? b)%N && eqb s' t'
  | _, _ => false
  end.

(** [p in s] for two strings *)
Fixpoint contains (s p : text) : bool :=
  startswith s p || match s with [] => false | _ :: s' => contains s' p end.

(** [s.lower()] on the ASCII letters *)
Definition lower_ascii (s : text) : text :=
  List.map (fun c => if (65 <=? c) && (c <=? 90) then c + 32 else c)%N s.

End Str.
Export Str.

(** ** Python [float] *)

Module Float.

Definition prec : Z := 53.
Definition emax : Z := 1024.

Definition zero : spec_float := S754_zero false.
Definition one : spec_float := S754_finite false 4503599627370496 (-52).
(** The literals [0.5], [0.4] and [0.6] of the source, as the binary64
    values the interpreter reads them as. *)
Definition half : spec_float := S754_finite false 4503599627370496 (-53).
Definition c0_4 : spec_float := S754_finite false 7205759403792794 (-54).
Definition c0_6 : spec_float := S754_finite false 5404319552844595 (-53).

(** The exact comparison of an [int] with a [float]. *)
Definition int_compare (z : Z) (f : spec_float) : option comparison :=
  match f with
  | S754_nan => None
  | S754_infinity s => Some (if s then Gt else Lt)
  | S754_zero _ => Some (z ?= 0)
  | S754_finite s m e =>
      let v := if s then Z.neg m else Z.pos m in
      Some (if 0 <=? e then z ?= v * 2 ^ e else z * 2 ^ (- e) ?= v)
  end.

(** A decimal literal [m * 10^e], correctly rounded: what [float(str)]
    returns. *)
Definition of_decimal (neg : bool) (m : Z) (e : Z) : spec_float :=
  match m with
  | Z.pos p =>
      if 0 <=? e then binary_normalize prec emax ((if neg then -1 else 1) * (m * 10 ^ e)) 0 neg
      else SFdiv prec emax (S754_finite neg p 0) (S754_finite false (Z.to_pos (10 ^ (- e))) 0)
  | _ => S754_zero neg
  end.

End Float.

(** ** Python values *)

Inductive pyval : Type :=
| PNone
| PBool (b : bool)
| PInt (z : Z)
| PFloat (f : spec_float)
| PStr (s : text)
| PList (l : list pyval)
| PDict (d : gmap text pyval).

(** ** Exceptions *)

Inductive exn : Type :=
| AttributeError (attr : string)
| TypeError
| KeyError
| IndexError
| JSONDecodeError
| ValidationError (model : string)
| HTTPStatusError (status_code : Z) (body : text)
| TransportError
(** [Exception("Unexpected response format from Gemini API")] *)
| UnexpectedFormat
(** [Exception(f"Gemini API error for {lender_name}: ...")] *)
| GeminiApiError (status_code : Z) (body : text)
(** [Exception(f"Failed to parse Gemini response for {lender_name}: ...")] *)
| ParseFailure
(** [Exception(f"Error evaluating {lender_name}: {str(e)}")] *)
| EvaluationError (cause : exn)
(** [fastapi.HTTPException(status_code=..., detail=...)] *)
| HTTPException (status_code : Z) (detail : string).

Inductive result (A : Type) : Type :=
| Ok (a : A)
| Raise (e : exn).
Arguments Ok {A} a.
Arguments Raise {A} e.

(** Statements run in sequence; the first exception raised ends the run. *)
#[global] Instance result_ret : MRet result := fun A a => Ok a.
#[global] Instance result_bind : MBind result :=
  fun A B f m => match m with Ok a => f a | Raise e => Raise e end.

(** [try: body  except Exception as e: raise h(e)] *)
Definition try_except {A} (body : result A) (h : exn -> exn) : result A :=
  match body with Ok a => Ok a | Raise e => Raise (h e) end.

(** A partial operation that raises [e] where it is undefined. *)
Definition of_option {A} (o : option A) (e : exn) : result A :=
  match o with Some a => Ok a | None => Raise e end.

(** ** Dynamic operations of the interpreter used by the service *)

Module Py.

(** [bool(v)] *)
Definition truthy (v : pyval) : bool :=
  match v with
  | PNone => false
  | PBool b => b
  | PInt z => negb (z =? 0)
  | PFloat f => negb (SFeqb f Float.zero)
  | PStr s => match s with [] => false | _ => true end
  | PList l => match l with [] => false | _ => true end
  | PDict d => negb (Nat.eqb (size d) 0)
  end.

(** [v.get(key, default)]: only a [dict] has the method. *)
Definition get (v : pyval) (key : text) (dflt : pyval) : result pyval :=
  match v with
  | PDict d => Ok (default dflt (d !! key))
  | _ => Raise (AttributeError "get")
  end.

(** [v >= y] and [v < y] against a [float]; an operand that is neither
    [float], [int] nor [bool] raises [TypeError]. *)
Definition ge_float (v : pyval) (y : spec_float) : result bool :=
  let of_cmp c := match c with Some (Gt | Eq) => true | _ => false end in
  match v with
  | PFloat f => Ok (SFleb y f)
  | PInt z => Ok (of_cmp (Float.int_compare z y))
  | PBool b => Ok (of_cmp (Float.int_compare (Z.b2z b) y))
  | _ => Raise TypeError
  end.

Definition lt_float (v : pyval) (y : spec_float) : result bool :=
  let of_cmp c := match c with Some Lt => true | _ => false end in
  match v with
  | PFloat f => Ok (SFltb f y)
  | PInt z => Ok (of_cmp (Float.int_compare z y))
  | PBool b => Ok (of_cmp (Float.int_compare (Z.b2z b) y))
  | _ => Raise TypeError
  end.

(** The items a [for] loop (or [str.join]) draws from [v]. *)
Definition iter (v : pyval) : result (list pyval) :=
  match v with
  | PList l => Ok l
  | PStr s => Ok (List.map (fun c => PStr [c]) s)
  | PDict d => Ok (List.map (fun kv => PStr (fst kv)) (map_to_list d))
  | _ => Raise TypeError
  end.

(** [key in v] for a string [key] *)
Definition contains (v : pyval) (key : text) : result bool :=
  match v with
  | PDict d => Ok (bool_decide (is_Some (d !! key)))
  | PList l => Ok (existsb (fun x => match x with PStr s => Str.eqb s key | _ => false end) l)
  | PStr s => Ok (Str.contains s key)
  | _ => Raise TypeError
  end.

(** [v[key]] for a string [key] *)
Definition getitem (v : pyval) (key : text) : result pyval :=
  match v with
  | PDict d => of_option (d !! key) KeyError
  | _ => Raise TypeError
  end.

(** [v[0]]; the keys of a decoded JSON object are strings, so a [dict]
    has no key [0]. *)
Definition getitem0 (v : pyval) : result pyval :=
  match v with
  | PList l => of_option (head l) IndexError
  | PStr s => of_option ((fun c => PStr [c]) <$> head s) IndexError
  | PDict _ => Raise KeyError
  | _ => Raise TypeError
  end.

(** [len(v)] *)
Definition len (v : pyval) : result nat :=
  match v with
  | PList l => Ok (length l)
  | PStr s => Ok (length s)
  | PDict d => Ok (size d)
  | _ => Raise TypeError
  end.

End Py.

(** ** Field validation of the DTOs (pydantic, default lax mode) *)

Module Pydantic.

(** A [str] field accepts a [str] only. *)
Definition str_field (v : pyval) : option text :=
  match v with PStr s => Some s | _ => None end.

Definition false_words : list text := List.map txt ["0"; "off"; "f"; "false"; "n"; "no"]%string.
Definition true_words : list text := List.map txt ["1"; "on"; "t"; "true"; "y"; "yes"]%string.

(** A [bool] field accepts a [bool], the numbers 0 and 1, and the usual
    words. *)
Definition bool_field (v : pyval) : option bool :=
  match v with
  | PBool b => Some b
  | PInt z => if z =? 0 then Some false else if z =? 1 then Some true else None
  | PFloat f =>
      if SFeqb f Float.zero then Some false
      else if SFeqb f Float.one then Some true else None
  | PStr s =>
      if existsb (Str.eqb (lower_ascii s)) false_words then Some false
      else if existsb (Str.eqb (lower_ascii s)) true_words then Some true else None
  | _ => None
  end.

(** [float = Field(..., ge=0, le=1)]: the input read as a number, which has
    to lie between 0 and 1.  A [float] is taken as it is; an [int] or a
    [bool] is converted, and of the integers only 0 and 1 convert to a
    number in that range. *)
Definition unit_interval_field (v : pyval) : option spec_float :=
  match v with
  | PFloat f => if SFleb Float.zero f && SFleb f Float.one then Some f else None
  | PInt z => if z =? 0 then Some Float.zero else if z =? 1 then Some Float.one else None
  | PBool b => Some (if b then Float.one else Float.zero)
  | _ => None
  end.

(** [Optional[List[str]]] *)
Definition optional_str_list_field (v : pyval) : option (option (list text)) :=
  match v with
  | PNone => Some None
  | PList l => Some <$> mapM str_field l
  | _ => None
  end.

End Pydantic.

(** ** The DTOs of [app/dto/loan_application.py] *)

Record CriteriaEvaluationDTO : Type := {
  criteria_key : text;
  display_name : text;
  required_value : pyval;
  actual_value : pyval;
  met : bool;
  reasoning : text
}.

Record LenderMatchDTO : Type := {
  lender_id : text;
  lender_name : text;
  confidence_score : spec_float;
  overall_reasoning : text;
  criteria_evaluations : list CriteriaEvaluationDTO;
  improvement_suggestions : option (list text)
}.

Record EligibilityResultDTO : Type := {
  application_id : text;
  matched_lenders : list LenderMatchDTO;
  unmatched_lenders : list LenderMatchDTO;
  analysis_timestamp : Z;
  total_lenders_evaluated : Z
}.

(** [CriteriaEvaluationDTO(criteria_key=..., ...)]: the constructor
    validates every field and raises [ValidationError] otherwise. *)
Definition new_CriteriaEvaluationDTO
    (criteria_key display_name required_value actual_value met reasoning : pyval)
    : result CriteriaEvaluationDTO :=
  of_option
    (k ← Pydantic.str_field criteria_key;
     d ← Pydantic.str_field display_name;
     m ← Pydantic.bool_field met;
     r ← Pydantic.str_field reasoning;
     Some {| criteria_key := k; display_name := d; required_value := required_value;
             actual_value := actual_value; met := m; reasoning := r |})
    (ValidationError "CriteriaEvaluationDTO").

(** [LenderMatchDTO(lender_id=..., ...)] *)
Definition new_LenderMatchDTO
    (lender_id : text) (lender_name confidence_score overall_reasoning : pyval)
    (criteria_evaluations : list CriteriaEvaluationDTO) (improvement_suggestions : pyval)
    : result LenderMatchDTO :=
  of_option
    (n ← Pydantic.str_field lender_name;
     c ← Pydantic.unit_interval_field confidence_score;
     r ← Pydantic.str_field overall_reasoning;
     s ← Pydantic.optional_str_list_field improvement_suggestions;
     Some {| lender_id := lender_id; lender_name := n; confidence_score := c;
             overall_reasoning := r; criteria_evaluations := criteria_evaluations;
             improvement_suggestions := s |})
    (ValidationError "LenderMatchDTO").

(** ** What the service reaches outside the repository *)

(** The outcome of [client.post(...)], [response.raise_for_status()] and
    [response.json()] for one request. *)
Inductive http_outcome : Type :=
(** [client.post] raises: timeout after 60 s, connection fault *)
| transport_fault
(** [raise_for_status] raises [HTTPStatusError] *)
| status_fault (status_code : Z) (body : text)
(** [response.json()] raises [JSONDecodeError] *)
| body_not_json
(** [response.json()] returns *)
| replied (body : pyval).

Record world : Type := {
  (** [json.loads] *)
  json_loads : text -> result pyval;
  (** the built-in [str()] on an object that is not a [str] *)
  render : pyval -> text;
  (** [app.prompts.eligibility_analysis.get_eligibility_analysis_prompt]:
      text formatting of the application, the lender name and its criteria *)
  get_eligibility_analysis_prompt : pyval -> pyval -> pyval -> result text;
  (** what the Gemini endpoint answers to the request of the task created
      for the lender at a given position, given its prompt *)
  post : nat -> text -> http_outcome;
  (** [datetime.utcnow()] *)
  utcnow : Z
}.

(** ** [EligibilityService] *)

Module EligibilityService.

(** [_extract_text_from_response] *)
Definition _extract_text_from_response (response : pyval) : result text :=
  has_candidates ← Py.contains response (txt "candidates");
  nonempty ← (if has_candidates : bool
              then candidates ← Py.getitem response (txt "candidates");
                   n ← Py.len candidates;
                   Ok (0 <? n)%nat
              else Ok false);
  if nonempty : bool then
    candidates ← Py.getitem response (txt "candidates");
    candidate ← Py.getitem0 candidates;
    has_content ← Py.contains candidate (txt "content");
    has_parts ← (if has_content : bool
                 then content ← Py.getitem candidate (txt "content");
                      Py.contains content (txt "parts")
                 else Ok false);
    if has_parts : bool then
      content ← Py.getitem candidate (txt "content");
      text_parts ← Py.getitem content (txt "parts");
      parts ← Py.iter text_parts;
      pieces ← mapM (fun part => Py.get part (txt "text") (PStr [])) parts;
      strs ← mapM (fun piece => of_option (Pydantic.str_field piece) TypeError) pieces;
      Ok (concat strs)
    else Raise UnexpectedFormat
  else Raise UnexpectedFormat.

(** [_clean_response_text] *)
Definition _clean_response_text (text : Str.text) : Str.text :=
  let text := strip text in
  let text :=
    if startswith text (txt "```json") then slice_from 7 text
    else if startswith text (txt "```") then slice_from 3 text
    else text in
  let text := if endswith text (txt "```") then slice_to_minus 3 text else text in
  strip text.

(** Attribute lookup on the service instance for a helper from [str] to
    [str]: the class body defines [_clean_response_text] and no other; any
    other name raises [AttributeError]. *)
Definition getattr_text_helper (name : string) : result (text -> text) :=
  if String.eqb name "_clean_response_text" then Ok _clean_response_text
  else Raise (AttributeError name).

(** Lines 260-268 of [_convert_to_lender_match_dto]:
[[
   if not overall_match and base_confidence >= 0.5:
       base_confidence = 0.4
   elif overall_match and base_confidence < 0.5:
       base_confidence = 0.6
]]
    [and] evaluates its right operand only when the left one holds. *)
Definition adjust_confidence (overall_match base_confidence : pyval) : result pyval :=
  if negb (Py.truthy overall_match) then
    too_high ← Py.ge_float base_confidence Float.half;
    if too_high : bool then Ok (PFloat Float.c0_4) else Ok base_confidence
  else
    too_low ← Py.lt_float base_confidence Float.half;
    if too_low : bool then Ok (PFloat Float.c0_6) else Ok base_confidence.

(** The body of the loop over [analysis.get('criteria_evaluations', [])] *)
Definition convert_criterion (crit : pyval) : result CriteriaEvaluationDTO :=
  criteria_key ← Py.get crit (txt "criteria_key") (PStr []);
  display_name ← Py.get crit (txt "display_name") (PStr []);
  required_value ← Py.get crit (txt "required_value") PNone;
  actual_value ← Py.get crit (txt "actual_value") PNone;
  met ← Py.get crit (txt "met") (PBool false);
  reasoning ← Py.get crit (txt "reasoning") (PStr []);
  new_CriteriaEvaluationDTO criteria_key display_name required_value actual_value met reasoning.

(** [_convert_to_lender_match_dto] *)
Definition _convert_to_lender_match_dto
    (lender_id : text) (lender_name : pyval) (analysis : pyval) : result LenderMatchDTO :=
  crits ← Py.get analysis (txt "criteria_evaluations") (PList []);
  crits ← Py.iter crits;
  criteria_evals ← mapM convert_criterion crits;
  overall_match ← Py.get analysis (txt "overall_match") (PBool false);
  base_confidence ← Py.get analysis (txt "confidence_score") (PFloat Float.half);
  base_confidence ← adjust_confidence overall_match base_confidence;
  overall_reasoning ← Py.get analysis (txt "overall_reasoning") (PStr []);
  improvement_suggestions ← Py.get analysis (txt "improvement_suggestions") (PList []);
  new_LenderMatchDTO lender_id lender_name base_confidence overall_reasoning
    criteria_evals improvement_suggestions.

Section Service.
Variable w : world.

(** Lines 149-162 of [_evaluate_single_lender]: clean, parse, and on
    [JSONDecodeError] call [self._fix_json_issues] and parse again. *)
Definition parse_response (response_text : text) : result pyval :=
  let cleaned_text := _clean_response_text response_text in
  match json_loads w cleaned_text with
  | Raise JSONDecodeError =>
      _fix_json_issues ← getattr_text_helper "_fix_json_issues";
      let cleaned_text := _fix_json_issues cleaned_text in
      json_loads w cleaned_text
  | r => r
  end.

(** The three [except] clauses of [_evaluate_single_lender] *)
Definition wrap_failure (e : exn) : exn :=
  match e with
  | HTTPStatusError status_code body => GeminiApiError status_code body
  | JSONDecodeError => ParseFailure
  | e => EvaluationError e
  end.

(** The [str(lender_data.get('_id', ''))] and [lender_data.get('name',
    'Unknown Lender')] of [_evaluate_single_lender] *)
Definition lender_id_of (lender_data : gmap text pyval) : text :=
  match default (PStr []) (lender_data !! txt "_id") with
  | PStr s => s
  | v => render w v
  end.

Definition lender_name_of (lender_data : gmap text pyval) : pyval :=
  default (PStr (txt "Unknown Lender")) (lender_data !! txt "name").

(** Lines 136-162 of [_evaluate_single_lender]: the request of the task at
    position [i] and the decoding of its answer into [analysis]. *)
Definition request_analysis (i : nat) (prompt : text) : result pyval :=
  match post w i prompt with
  | transport_fault => Raise TransportError
  | status_fault status_code body => Raise (HTTPStatusError status_code body)
  | body_not_json => Raise JSONDecodeError
  | replied response =>
      response_text ← _extract_text_from_response response;
      parse_response response_text
  end.

(** [_evaluate_single_lender], for the task created at position [i]; the
    prompt is built before the [try] block is entered. *)
Definition _evaluate_single_lender
    (i : nat) (application_data : pyval) (lender_data : gmap text pyval)
    : result LenderMatchDTO :=
  let lender_id := lender_id_of lender_data in
  let lender_name := lender_name_of lender_data in
  let criteria := default (PList []) (lender_data !! txt "criteria") in
  prompt ← get_eligibility_analysis_prompt w application_data lender_name criteria;
  try_except
    (analysis ← request_analysis i prompt;
     _convert_to_lender_match_dto lender_id lender_name analysis)
    wrap_failure.

(** [asyncio.gather] called with [return_exceptions=True]: one entry per task,
    in the order of the tasks, an exception a task raised standing in its
    entry. *)
Definition gather_return_exceptions {A} (tasks : list (result A)) : list (result A) := tasks.

(** The loop of lines 68-77 over [evaluation_results], started with
    [matched_lenders = []] and [unmatched_lenders = []]. *)
Fixpoint partition_results (evaluation_results : list (result LenderMatchDTO))
    (matched_lenders unmatched_lenders : list LenderMatchDTO)
    : list LenderMatchDTO * list LenderMatchDTO :=
  match evaluation_results with
  | [] => (matched_lenders, unmatched_lenders)
  | Raise _ :: rest => partition_results rest matched_lenders unmatched_lenders
  | Ok r :: rest =>
      if SFleb Float.half (confidence_score r)
      then partition_results rest (matched_lenders ++ [r]) unmatched_lenders
      else partition_results rest matched_lenders (unmatched_lenders ++ [r])
  end.

(** [l.sort(key=lambda x: x.confidence_score, reverse=True)]: the stable
    sort of the interpreter, which compares keys with [<] only; written as
    the insertion that never moves an entry past one it is not smaller
    than. *)
Fixpoint insert_desc (x : LenderMatchDTO) (l : list LenderMatchDTO) : list LenderMatchDTO :=
  match l with
  | [] => [x]
  | y :: l' =>
      if SFltb (confidence_score x) (confidence_score y) then y :: insert_desc x l'
      else x :: l
  end.

Definition sort_desc (l : list LenderMatchDTO) : list LenderMatchDTO :=
  foldr insert_desc [] l.

(** How [asyncio.gather] comes by that list: entry [i] is set when task [i]
    completes, [completion] listing the tasks in the order in which they
    complete, and the list is handed over once no entry is pending. *)
Definition fill_slots {A} (tasks : list (result A)) (completion : list nat)
    (slots : list (option (result A))) : list (option (result A)) :=
  foldl (fun slots i => <[i := tasks !! i]> slots) slots completion.

Definition gather_by_completion {A} (tasks : list (result A)) (completion : list nat)
    : option (list (result A)) :=
  mapM id (fill_slots tasks completion (replicate (length tasks) None)).

(** [evaluate_application] *)
Definition evaluate_application
    (application_id : text) (application_data : pyval)
    (lenders_with_criteria : list (gmap text pyval)) : result EligibilityResultDTO :=
  let evaluation_tasks :=
    imap (fun i lender => _evaluate_single_lender i application_data lender)
      lenders_with_criteria in
  let evaluation_results := gather_return_exceptions evaluation_tasks in
  let '(matched_lenders, unmatched_lenders) := partition_results evaluation_results [] [] in
  let matched_lenders := sort_desc matched_lenders in
  let unmatched_lenders := sort_desc unmatched_lenders in
  Ok {| application_id := application_id;
        matched_lenders := matched_lenders;
        unmatched_lenders := unmatched_lenders;
        analysis_timestamp := utcnow w;
        total_lenders_evaluated := Z.of_nat (length lenders_with_criteria) |}.

End Service.

End EligibilityService.

(** ** The routes of [app/api/routes/application_routes.py] *)

Module Routes.

Record LenderResponseDTO : Type := {
  id : text;
  name : text;
  (** [contact], [business_model], [created_at], [updated_at], dumped *)
  other_fields : gmap text pyval
}.

(** [lender.model_dump(by_alias=True)] *)
Definition model_dump (lender : LenderResponseDTO) : gmap text pyval :=
  <[txt "_id" := PStr (id lender)]> (<[txt "name" := PStr (name lender)]> (other_fields lender)).

(** The services the routes call, each of which may raise. *)
Record services : Type := {
  (** [app_service.create_application]: the id of the created application
      and its response DTO *)
  create_application : pyval -> result (text * pyval);
  get_application_data_dict : text -> result pyval;
  list_lenders : result (list LenderResponseDTO);
  (** [criteria_service.get_criteria_by_lender], each criterion dumped *)
  get_criteria_by_lender : text -> result (list pyval);
  update_application_status : text -> text -> result unit
}.

Section Routes.
Variable w : world.
Variable s : services.

(** The loop that builds [lenders_with_criteria] *)
Definition fetch_criteria (lenders : list LenderResponseDTO) : result (list (gmap text pyval)) :=
  mapM (fun lender =>
          let lender_dict := model_dump lender in
          criteria ← get_criteria_by_lender s (id lender);
          Ok (<[txt "criteria" := PList criteria]> lender_dict))
       lenders.

(** [except HTTPException: raise] and [except Exception as e: raise
    HTTPException(500, ...)] *)
Definition to_http (detail : string) (e : exn) : exn :=
  match e with
  | HTTPException _ _ => e
  | _ => HTTPException 500 detail
  end.

(** [evaluate_existing_application]; the detail of the 404 names the
    application. *)
Definition evaluate_existing_application (application_id : text) : result EligibilityResultDTO :=
  try_except
    (application_data ← get_application_data_dict s application_id;
     if negb (Py.truthy application_data)
     then Raise (HTTPException 404 "Application not found")
     else
       lenders ← list_lenders s;
       match lenders with
       | [] => Raise (HTTPException 400 "No lenders available for evaluation")
       | _ =>
           lenders_with_criteria ← fetch_criteria lenders;
           EligibilityService.evaluate_application w application_id application_data
             lenders_with_criteria
       end)
    (to_http "Failed to evaluate application").

(** [submit_and_evaluate_application] *)
Definition submit_and_evaluate_application (application : pyval)
    : result (pyval * EligibilityResultDTO) :=
  try_except
    (created ← create_application s application;
     let application_id := fst created in
     application_data ← get_application_data_dict s application_id;
     lenders ← list_lenders s;
     match lenders with
     | [] => Raise (HTTPException 400 "No lenders available for evaluation")
     | _ =>
         lenders_with_criteria ← fetch_criteria lenders;
         eligibility_result ←
           EligibilityService.evaluate_application w application_id application_data
             lenders_with_criteria;
         _ ← update_application_status s application_id (txt "evaluated");
         Ok (snd created, eligibility_result)
     end)
    (to_http "Failed to submit and evaluate application").

End Routes.

End Routes.

(** ** A reference decoder for [json.loads]

    The service uses whatever [json.loads] the interpreter provides (the
    [json_loads] field of [world]); the results below hold for any such
    function.  This decoder follows the grammar CPython's [json] module
    accepts and is used to run the service on concrete response texts. *)

Module Json.

Definition ws (c : N) : bool := ((c =? 32) || (c =? 9) || (c =? 10) || (c =? 13))%N.

Fixpoint skip_ws (s : text) : text :=
  match s with
  | c :: r => if ws c then skip_ws r else s
  | [] => []
  end.

Definition is_digit (c : N) : bool := ((48 <=? c) && (c <=? 57))%N.

(** The longest run of decimal digits at the head of [s]: its value after
    [acc], its length after [n], and what follows. *)
Fixpoint digits (s : text) (acc : Z) (n : nat) : Z * nat * text :=
  match s with
  | c :: r => if is_digit c then digits r (acc * 10 + Z.of_N (c - 48)) (S n) else (acc, n, s)
  | [] => (acc, n, [])
  end.

(** [NUMBER_RE]: an integer part, then an optional fraction and an optional
    exponent; an [int] when neither is present, a [float] otherwise. *)
Definition scan_number (s : text) : option (pyval * text) :=
  let '(neg, s1) := match s with 45%N :: r => (true, r) | _ => (false, s) end in
  match s1 with
  | c :: r1 =>
      if is_digit c then
        let '(int_val, s2) :=
          if (c =? 48)%N then (0, r1) else let '(v, _, r) := digits s1 0 0 in (v, r) in
        let '(frac, s3) :=
          match s2 with
          | 46%N :: r2 =>
              let '(v, n, r) := digits r2 0 0 in
              match n with O => (None, s2) | _ => (Some (v, n), r) end
          | _ => (None, s2)
          end in
        let '(exp, s4) :=
          match s3 with
          | e :: r3 =>
              if ((e =? 101) || (e =? 69))%N then
                let '(eneg, r4) :=
                  match r3 with
                  | 45%N :: r => (true, r)
                  | 43%N :: r => (false, r)
                  | _ => (false, r3)
                  end in
                let '(v, n, r) := digits r4 0 0 in
                match n with O => (None, s3) | _ => (Some (if eneg : bool then - v else v), r) end
              else (None, s3)
          | [] => (None, s3)
          end in
        match frac, exp with
        | None, None => Some (PInt (if neg then - int_val else int_val), s4)
        | _, _ =>
            let '(fv, fn) := default (0, O) frac in
            Some (PFloat (Float.of_decimal neg (int_val * 10 ^ Z.of_nat fn + fv)
                            (default 0 exp - Z.of_nat fn)), s4)
        end
      else None
  | [] => None
  end.

Definition hex_val (c : N) : option N :=
  if is_digit c then Some (c - 48)%N
  else if ((97 <=? c) && (c <=? 102))%N then Some (c - 87)%N
  else if ((65 <=? c) && (c <=? 70))%N then Some (c - 55)%N
  else None.

Definition hex4 (s : text) : option (N * text) :=
  match s with
  | a :: b :: c :: d :: r =>
      a ← hex_val a; b ← hex_val b; c ← hex_val c; d ← hex_val d;
      Some ((((a * 16 + b) * 16 + c) * 16 + d)%N, r)
  | _ => None
  end.

Definition unescape (c : N) : option N :=
  if ((c =? 34) || (c =? 92) || (c =? 47))%N then Some c
  else if (c =? 98)%N then Some 8%N
  else if (c =? 102)%N then Some 12%N
  else if (c =? 110)%N then Some 10%N
  else if (c =? 114)%N then Some 13%N
  else if (c =? 116)%N then Some 9%N
  else None.

(** [py_scanstring] in strict mode, after the opening quote; [acc] holds
    the characters read so far, last first. *)
Fixpoint scanstring (fuel : nat) (s : text) (acc : text) : option (text * text) :=
  match fuel with
  | O => None
  | S fuel =>
      match s with
      | [] => None
      | c :: r =>
          if (c =? 34)%N then Some (rev acc, r)
          else if (c <? 32)%N then None
          else if (c =? 92)%N then
            match r with
            | [] => None
            | e :: r1 =>
                if (e =? 117)%N then
                  '(uni, r2) ← hex4 r1;
                  if ((55296 <=? uni) && (uni <=? 56319))%N then
                    match r2 with
                    | 92%N :: 117%N :: r3 =>
                        '(uni2, r4) ← hex4 r3;
                        if ((56320 <=? uni2) && (uni2 <=? 57343))%N
                        then scanstring fuel r4
                               ((65536 + ((uni - 55296) * 1024 + (uni2 - 56320)))%N :: acc)
                        else scanstring fuel r2 (uni :: acc)
                    | _ => scanstring fuel r2 (uni :: acc)
                    end
                  else scanstring fuel r2 (uni :: acc)
                else
                  u ← unescape e; scanstring fuel r1 (u :: acc)
            end
          else scanstring fuel r (c :: acc)
      end
  end.

(** [scan_once], [JSONObject] after the first key's opening quote was
    seen, and [JSONArray] after the opening bracket and a first item was
    seen to follow. *)
Fixpoint scan_once (fuel : nat) (s : text) {struct fuel} : option (pyval * text) :=
  match fuel with
  | O => None
  | S fuel =>
      match s with
      | [] => None
      | c :: r =>
          if (c =? 34)%N then
            '(str, r) ← scanstring (S (length r)) r []; Some (PStr str, r)
          else if (c =? 123)%N then
            match skip_ws r with
            | 125%N :: r => Some (PDict ∅, r)
            | r => object_pairs fuel ∅ r
            end
          else if (c =? 91)%N then
            match skip_ws r with
            | 93%N :: r => Some (PList [], r)
            | r => array_items fuel [] r
            end
          else if startswith s (txt "null") then Some (PNone, drop 4 s)
          else if startswith s (txt "true") then Some (PBool true, drop 4 s)
          else if startswith s (txt "false") then Some (PBool false, drop 5 s)
          else
            match scan_number s with
            | Some x => Some x
            | None =>
                if startswith s (txt "NaN") then Some (PFloat S754_nan, drop 3 s)
                else if startswith s (txt "Infinity")
                then Some (PFloat (S754_infinity false), drop 8 s)
                else if startswith s (txt "-Infinity")
                then Some (PFloat (S754_infinity true), drop 9 s)
                else None
            end
      end
  end
with object_pairs (fuel : nat) (acc : gmap text pyval) (s : text) {struct fuel}
    : option (pyval * text) :=
  match fuel with
  | O => None
  | S fuel =>
      match s with
      | 34%N :: r =>
          '(key, r) ← scanstring (S (length r)) r [];
          match skip_ws r with
          | 58%N :: r =>
              '(value, r) ← scan_once fuel (skip_ws r);
              let acc := <[key := value]> acc in
              match skip_ws r with
              | 125%N :: r => Some (PDict acc, r)
              | 44%N :: r => object_pairs fuel acc (skip_ws r)
              | _ => None
              end
          | _ => None
          end
      | _ => None
      end
  end
with array_items (fuel : nat) (acc : list pyval) (s : text) {struct fuel}
    : option (pyval * text) :=
  match fuel with
  | O => None
  | S fuel =>
      '(value, r) ← scan_once fuel s;
      match skip_ws r with
      | 93%N :: r => Some (PList (rev (value :: acc)), r)
      | 44%N :: r => array_items fuel (value :: acc) (skip_ws r)
      | _ => None
      end
  end.

(** [json.loads(s)] for a [str] *)
Definition loads (s : text) : result pyval :=
  match scan_once (S (S (length s))) (skip_ws s) with
  | Some (v, r) => match skip_ws r with [] => Ok v | _ => Raise JSONDecodeError end
  | None => Raise JSONDecodeError
  end.

End Json.

(** ** Notions the properties are stated with *)

Definition isnan (f : spec_float) : bool :=
  match f with S754_nan => true | _ => false end.

(** [0 <= c <= 1] *)
Definition in_unit_interval (c : spec_float) : bool :=
  SFleb Float.zero c && SFleb c Float.one.

(** The judgments of the evaluations that succeeded, in submission order. *)
Definition successes (outcomes : list (result LenderMatchDTO)) : list LenderMatchDTO :=
  omap (fun r => match r with Ok j => Some j | Raise _ => None end) outcomes.

(** The evaluations [evaluate_application] gathers, one per lender. *)
Definition outcomes (w : world) (application_data : pyval)
    (lenders : list (gmap text pyval)) : list (result LenderMatchDTO) :=
  imap (fun i lender => EligibilityService._evaluate_single_lender w i application_data lender)
    lenders.

(** The payload decoded for the lender at position [i]: the value
    [analysis] takes in [_evaluate_single_lender]. *)
Definition analysis_of (w : world) (i : nat) (application_data : pyval)
    (lender : gmap text pyval) : result pyval :=
  prompt ← get_eligibility_analysis_prompt w application_data
             (EligibilityService.lender_name_of lender)
             (default (PList []) (lender !! txt "criteria"));
  EligibilityService.request_analysis w i prompt.

(** The oracle's own verdict: [analysis.get('overall_match', False)], as
    the conditions of the service read it. *)
Definition verdict (analysis : gmap text pyval) : bool :=
  Py.truthy (default (PBool false) (analysis !! txt "overall_match")).

(** The confidence the oracle reports: [analysis.get('confidence_score', 0.5)] *)
Definition reported_confidence (analysis : gmap text pyval) : pyval :=
  default (PFloat Float.half) (analysis !! txt "confidence_score").

Definition is_matched (j : LenderMatchDTO) : bool := SFleb Float.half (confidence_score j).

(** [a] may stand before [b] in a list sorted by descending confidence. *)
Definition descending (a b : LenderMatchDTO) : Prop :=
  SFleb (confidence_score b) (confidence_score a) = true.

(** [j] ties with the confidence [c]. *)
Definition ties_with (c : spec_float) (j : LenderMatchDTO) : bool :=
  SFeqb (confidence_score j) c.

(** A text that does not begin, respectively end, with a character
    [strip] removes. *)
Definition clean_head (t : text) : Prop :=
  match t with [] => True | c :: _ => isspace c = false end.

Definition clean_tail (t : text) : Prop := clean_head (rev t).

(** A payload between an opening fence carrying [tag] and a closing fence,
    [sep1] and [sep2] being the line breaks around the payload. *)
Definition fenced (tag sep1 payload sep2 : text) : text :=
  txt "```" ++ tag ++ sep1 ++ payload ++ sep2 ++ txt "```".

(** ** Concrete inputs *)

Module Sample.

Definition nl : text := [10%N].

(** A response text, spelled with ['] where the text has a double quote. *)
Definition json (s : string) : text :=
  List.map (fun c => if (c =? 39)%N then 34%N else c) (txt s).

(** The body of a Gemini answer that carries [t] as its only text part. *)
Definition gemini_body (t : text) : pyval :=
  PDict {[ txt "candidates" :=
    PList [PDict {[ txt "content" :=
      PDict {[ txt "parts" := PList [PDict {[ txt "text" := PStr t ]}] ]} ]}] ]}.

Definition says (s : string) : http_outcome := replied (gemini_body (json s)).

Definition lender (id name : string) : gmap text pyval :=
  <[txt "_id" := PStr (txt id)]> {[ txt "name" := PStr (txt name) ]}.

(** A world whose endpoint answers the task at position [i] with
    [answers i], with the reference decoder for [json.loads]. *)
Definition world_of (answers : nat -> http_outcome) : world :=
  {| json_loads := Json.loads;
     render := fun _ => [];
     get_eligibility_analysis_prompt := fun _ _ _ => Ok [];
     post := fun i _ => answers i;
     utcnow := 0 |}.

Definition judgment (id name : string) (c : spec_float) : LenderMatchDTO :=
  {| lender_id := txt id; lender_name := txt name; confidence_score := c;
     overall_reasoning := []; criteria_evaluations := []; improvement_suggestions := Some [] |}.

Definition c0_9 : spec_float := S754_finite false 8106479329266893 (-53).
Definition c0_3 : spec_float := S754_finite false 5404319552844595 (-54).
Definition c0_8 : spec_float := S754_finite false 7205759403792794 (-53).
Definition c0_1 : spec_float := S754_finite false 7205759403792794 (-56).

(** Three lenders A, B, C whose oracle reports 0.9, 0.9 and 0.3. *)
Definition abc : list (gmap text pyval) := [lender "a" "A"; lender "b" "B"; lender "c" "C"].

Definition answers_993 (i : nat) : http_outcome :=
  match i with
  | 0%nat => says "{'overall_match': true, 'confidence_score': 0.9}"
  | 1%nat => says "{'overall_match': true, 'confidence_score': 0.9}"
  | _ => says "{'overall_match': false, 'confidence_score': 0.3}"
  end.

(** The same lenders when the request for B meets a network fault. *)
Definition answers_b_down (i : nat) : http_outcome :=
  match i with
  | 1%nat => transport_fault
  | _ => says "{'overall_match': true, 'confidence_score': 0.9}"
  end.

(** One lender whose oracle answers with the given outcome. *)
Definition always (o : http_outcome) (i : nat) : http_outcome := o.

(** A response that parses as it is. *)
Definition yes_0_9 : text := json "{'overall_match': true, 'confidence_score': 0.9}".

(** A response a repair of trailing commas would make parse. *)
Definition trailing_comma : text := json "{'overall_match': true, 'confidence_score': 0.9,}".

(** The payloads of the three cases of the confidence adjustment, a payload
    that leaves both fields out, and one whose confidence is out of range. *)
Definition no_but_0_9 : gmap text pyval :=
  <[txt "overall_match" := PBool false]> {[ txt "confidence_score" := PFloat c0_9 ]}.
Definition yes_but_0_1 : gmap text pyval :=
  <[txt "overall_match" := PBool true]> {[ txt "confidence_score" := PFloat c0_1 ]}.
Definition yes_and_0_8 : gmap text pyval :=
  <[txt "overall_match" := PBool true]> {[ txt "confidence_score" := PFloat c0_8 ]}.
Definition yes_and_0_9 : gmap text pyval :=
  <[txt "overall_match" := PBool true]> {[ txt "confidence_score" := PFloat c0_9 ]}.
Definition c1_5 : spec_float := S754_finite false 6755399441055744 (-52).
Definition yes_and_1_5 : gmap text pyval :=
  <[txt "overall_match" := PBool true]> {[ txt "confidence_score" := PFloat c1_5 ]}.

(** The worlds of the examples. *)
Definition reference : world := world_of answers_993.
Definition b_down : world := world_of answers_b_down.
Definition broken_json : world := world_of (always (replied (gemini_body trailing_comma))).
Definition out_of_range : world :=
  world_of (always (says "{'overall_match': true, 'confidence_score': 1.5}")).
Definition silent : world := world_of (always (says "{}")).

(** The services of the routes when the lender collection is empty. *)
Definition no_lenders : Routes.services :=
  {| Routes.create_application := fun application => Ok (txt "app-1", application);
     Routes.get_application_data_dict := fun _ => Ok (PDict {[ txt "status" := PStr (txt "pending") ]});
     Routes.list_lenders := Ok [];
     Routes.get_criteria_by_lender := fun _ => Ok [];
     Routes.update_application_status := fun _ _ => Ok tt |}.

End Sample.

(** * Properties *)

Import EligibilityService.

(** ** The order of binary64 *)

Lemma SFcompare_opp (a b : spec_float) : SFcompare b a = CompOpp <$> SFcompare a b.
Proof.
  destruct a as [sa|sa| |sa ma ea], b as [sb|sb| |sb mb eb]; simpl;
    try destruct sa; try destruct sb; try reflexivity;
    change (Pos.compare_cont Eq) with Pos.compare;
    rewrite (Z.compare_antisym ea eb), (Pos.compare_antisym ma mb);
    destruct (ea ?= eb); simpl; rewrite ?CompOpp_involutive; reflexivity.
Qed.

Lemma SFcompare_total (a b : spec_float) : isnan a = false -> isnan b = false -> is_Some (SFcompare a b).
Proof. destruct a, b; simpl; intros; try discriminate; eauto. Qed.

Lemma SFcompare_nan (a b : spec_float) c : SFcompare a b = Some c -> isnan a = false /\ isnan b = false.
Proof. destruct a, b; simpl; intros; try discriminate; eauto. Qed.

Lemma SFltb_leb (a b : spec_float) : SFltb a b = true -> SFleb a b = true.
Proof. unfold SFltb, SFleb. destruct (SFcompare a b) as [[]|]; congruence. Qed.

Lemma SFltb_false_leb (a b : spec_float) :
  isnan a = false -> isnan b = false -> SFltb a b = false -> SFleb b a = true.
Proof.
  intros Ha Hb. unfold SFltb, SFleb. rewrite (SFcompare_opp a b).
  destruct (SFcompare_total a b Ha Hb) as [c ->]. destruct c; simpl; congruence.
Qed.

Lemma SFleb_false_ltb (a b : spec_float) :
  isnan a = false -> isnan b = false -> SFleb a b = false -> SFltb b a = true.
Proof.
  intros Ha Hb. unfold SFltb, SFleb. rewrite (SFcompare_opp a b).
  destruct (SFcompare_total a b Ha Hb) as [c ->]. destruct c; simpl; congruence.
Qed.

Lemma SFleb_nan (a b : spec_float) : SFleb a b = true -> isnan a = false /\ isnan b = false.
Proof.
  unfold SFleb. destruct (SFcompare a b) eqn:E; [|discriminate].
  intros _. eapply SFcompare_nan, E.
Qed.

Lemma SFleb_trans (a b c : spec_float) : SFleb a b = true -> SFleb b c = true -> SFleb a c = true.
Proof.
  unfold SFleb.
  destruct a as [sa|sa| |sa ma ea], b as [sb|sb| |sb mb eb], c as [sc|sc| |sc mc ec]; simpl;
    try destruct sa; try destruct sb; try destruct sc; simpl; try congruence;
    change (Pos.compare_cont Eq) with Pos.compare;
    destruct (Z.compare_spec ea eb), (Z.compare_spec eb ec), (Z.compare_spec ea ec);
    try congruence; try lia; subst;
    destruct (Pos.compare_spec ma mb), (Pos.compare_spec mb mc), (Pos.compare_spec ma mc);
    simpl; try congruence; try lia;
    destruct (Pos.compare_spec mb ma), (Pos.compare_spec mc mb), (Pos.compare_spec mc ma);
    simpl; try congruence; try lia.
Qed.

Lemma SFeqb_ltb (x y c : spec_float) : SFeqb x c = true -> SFeqb y c = true -> SFltb x y = false.
Proof.
  unfold SFeqb, SFltb.
  destruct x as [sa|sa| |sa ma ea], y as [sb|sb| |sb mb eb], c as [sc|sc| |sc mc ec]; simpl;
    try destruct sa; try destruct sb; try destruct sc; simpl; try congruence;
    change (Pos.compare_cont Eq) with Pos.compare;
    destruct (Z.compare_spec ea eb), (Z.compare_spec eb ec), (Z.compare_spec ea ec);
    try congruence; try lia; subst;
    destruct (Pos.compare_spec ma mb), (Pos.compare_spec mb mc), (Pos.compare_spec ma mc);
    simpl; try congruence; try lia;
    destruct (Pos.compare_spec mb ma), (Pos.compare_spec mc mb), (Pos.compare_spec mc ma);
    simpl; try congruence; try lia.
Qed.

Lemma SFcompare_refl (a : spec_float) : isnan a = false -> SFcompare a a = Some Eq.
Proof.
  destruct a as [s|s| |s m e]; simpl; try discriminate; intros _; try (by destruct s).
  change (Pos.compare_cont Eq) with Pos.compare.
  rewrite Z.compare_refl, Pos.compare_refl. by destruct s.
Qed.

Lemma SFleb_antisym (a b : spec_float) :
  SFleb a b = true -> SFleb b a = true -> SFeqb a b = true.
Proof.
  unfold SFleb, SFeqb. rewrite (SFcompare_opp a b).
  destruct (SFcompare a b) as [[]|]; simpl; congruence.
Qed.

(** ** The error monad *)

Lemma bind_Ok {A B} (m : result A) (k : A -> result B) (b : B) :
  m ≫= k = Ok b -> exists a, m = Ok a /\ k a = Ok b.
Proof. destruct m as [a|e]; simpl; [eauto | discriminate]. Qed.

Lemma of_option_Ok {A} (o : option A) (e : exn) (a : A) :
  of_option o e = Ok a -> o = Some a.
Proof. destruct o; simpl; congruence. Qed.

Lemma try_except_Ok {A} (body : result A) (h : exn -> exn) (a : A) :
  try_except body h = Ok a -> body = Ok a.
Proof. destruct body; simpl; congruence. Qed.

Lemma get_Ok (v : pyval) (key : text) (dflt x : pyval) :
  Py.get v key dflt = Ok x -> exists d, v = PDict d /\ x = default dflt (d !! key).
Proof. destruct v; simpl; try discriminate. intros [= <-]. eauto. Qed.

Ltac inv_bind :=
  repeat match goal with
    | H : _ ≫= _ = Ok _ |- _ =>
        let a := fresh "a" in let Ha := fresh "Ha" in
        apply bind_Ok in H as (a & Ha & H)
    end.

(** ** Building a judgment *)

Lemma unit_interval_field_range (v : pyval) (c : spec_float) :
  Pydantic.unit_interval_field v = Some c -> in_unit_interval c = true.
Proof.
  unfold Pydantic.unit_interval_field, in_unit_interval.
  destruct v as [|[]|z|f| | |]; try discriminate.
  - intros [= <-]. reflexivity.
  - intros [= <-]. reflexivity.
  - destruct (z =? 0); [intros [= <-]; reflexivity|].
    destruct (z =? 1); [intros [= <-]; reflexivity|discriminate].
  - destruct (SFleb Float.zero f && SFleb f Float.one) eqn:E; [|discriminate].
    intros [= <-]. exact E.
Qed.

Lemma new_LenderMatchDTO_Ok lender_id lender_name confidence overall_reasoning evals suggestions j :
  new_LenderMatchDTO lender_id lender_name confidence overall_reasoning evals suggestions = Ok j ->
  Pydantic.unit_interval_field confidence = Some (confidence_score j).
Proof.
  unfold new_LenderMatchDTO. intros H%of_option_Ok.
  destruct (Pydantic.str_field lender_name); [simpl in H|discriminate].
  destruct (Pydantic.unit_interval_field confidence); [simpl in H|discriminate].
  destruct (Pydantic.str_field overall_reasoning); [simpl in H|discriminate].
  destruct (Pydantic.optional_str_list_field suggestions); [simpl in H|discriminate].
  by injection H as <-.
Qed.

(** What a successful conversion went through: the payload is a [dict],
    the adjustment of its confidence returned, and the adjusted value
    passed the validation of the DTO. *)
Lemma convert_Ok lender_id lender_name analysis j :
  _convert_to_lender_match_dto lender_id lender_name analysis = Ok j ->
  exists d v,
    analysis = PDict d /\
    adjust_confidence (default (PBool false) (d !! txt "overall_match")) (reported_confidence d)
      = Ok v /\
    Pydantic.unit_interval_field v = Some (confidence_score j).
Proof.
  unfold _convert_to_lender_match_dto. intros H. inv_bind.
  apply get_Ok in Ha as (d & -> & ->).
  apply get_Ok in Ha2 as (d2 & [= <-] & ->).
  apply get_Ok in Ha3 as (d3 & [= <-] & ->).
  apply new_LenderMatchDTO_Ok in H.
  exists d, a4. done.
Qed.

Lemma in_unit_not_nan (c : spec_float) : in_unit_interval c = true -> isnan c = false.
Proof. by destruct c. Qed.

Lemma adjust_confidence_verdict om base v (c : spec_float) :
  adjust_confidence om base = Ok v ->
  Pydantic.unit_interval_field v = Some c ->
  SFleb Float.half c = Py.truthy om.
Proof.
  unfold adjust_confidence. destruct (Py.truthy om); simpl.
  - intros H. inv_bind. destruct a.
    + injection H as <-. simpl. by intros [= <-].
    + injection H as <-. destruct base as [|[]|z|f| | |]; try discriminate; simpl in *.
      * by intros [= <-].
      * destruct (z =? 0) eqn:E0; [apply Z.eqb_eq in E0 as ->; discriminate|].
        destruct (z =? 1) eqn:E1; [|discriminate]. by intros [= <-].
      * destruct (SFleb Float.zero f && SFleb f Float.one) eqn:E; [|discriminate].
        intros [= <-]. injection Ha as Ha.
        apply andb_true_iff in E as [E0 E1].
        apply SFleb_nan in E0 as [_ Hn].
        destruct (SFleb Float.half f) eqn:El; [done|].
        apply SFleb_false_ltb in El; [congruence|done|done].
  - intros H. inv_bind. destruct a.
    + injection H as <-. simpl. by intros [= <-].
    + injection H as <-. destruct base as [|[]|z|f| | |]; try discriminate; simpl in *.
      * by intros [= <-].
      * destruct (z =? 0) eqn:E0; [by intros [= <-]|].
        destruct (z =? 1) eqn:E1; [|discriminate]. apply Z.eqb_eq in E1 as ->. discriminate.
      * destruct (SFleb Float.zero f && SFleb f Float.one) eqn:E; [|discriminate].
        intros [= <-]. by injection Ha as ->.
Qed.

(** ** Partition and ranking *)

Lemma partition_results_spec (rs : list (result LenderMatchDTO)) (m u : list LenderMatchDTO) :
  partition_results rs m u =
    (m ++ List.filter is_matched (successes rs),
     u ++ List.filter (fun j => negb (is_matched j)) (successes rs)).
Proof.
  revert m u. induction rs as [|[r|e] rs IH]; intros m u; simpl.
  - by rewrite !app_nil_r.
  - unfold successes; simpl. fold (successes rs). fold (is_matched r).
    destruct (is_matched r); simpl; rewrite IH, <- ?app_assoc; reflexivity.
  - apply IH.
Qed.

Lemma insert_desc_perm (x : LenderMatchDTO) (l : list LenderMatchDTO) :
  Permutation (insert_desc x l) (x :: l).
Proof.
  induction l as [|y l IH]; simpl; [done|].
  destruct (SFltb _ _); [|done].
  rewrite IH. apply perm_swap.
Qed.

Lemma sort_desc_perm (l : list LenderMatchDTO) : Permutation (sort_desc l) l.
Proof.
  induction l as [|x l IH]; simpl; [done|].
  rewrite insert_desc_perm. by constructor.
Qed.

Lemma insert_desc_sorted (x : LenderMatchDTO) (l : list LenderMatchDTO) :
  isnan (confidence_score x) = false ->
  Forall (fun j => isnan (confidence_score j) = false) l ->
  StronglySorted descending l ->
  StronglySorted descending (insert_desc x l).
Proof.
  intros Hx Hl Hs. induction Hs as [|y l Hs IH Hy]; simpl.
  - repeat constructor.
  - apply Forall_cons in Hl as [Hny Hl].
    destruct (SFltb (confidence_score x) (confidence_score y)) eqn:E.
    + constructor; [by apply IH|].
      rewrite (insert_desc_perm x l). constructor; [|done].
      by apply SFltb_leb.
    + assert (descending x y) as Hxy by (by apply SFltb_false_leb).
      constructor; [by constructor|].
      constructor; [done|].
      eapply Forall_impl; [exact Hy|].
      intros z Hz. unfold descending in *. by eapply SFleb_trans.
Qed.

Lemma sort_desc_sorted (l : list LenderMatchDTO) :
  Forall (fun j => isnan (confidence_score j) = false) l ->
  StronglySorted descending (sort_desc l).
Proof.
  induction 1 as [|x l Hx Hl IH]; simpl; [constructor|].
  apply insert_desc_sorted; [done| |done].
  by rewrite (sort_desc_perm l).
Qed.

(** The sort is stable: it keeps the entries that tie in the order they
    had. *)
Lemma insert_desc_stable (c : spec_float) (x : LenderMatchDTO) (l : list LenderMatchDTO) :
  List.filter (ties_with c) (insert_desc x l) = List.filter (ties_with c) (x :: l).
Proof.
  induction l as [|y l IH]; [done|].
  cbn [insert_desc]. destruct (SFltb (confidence_score x) (confidence_score y)) eqn:E; [|done].
  cbn [List.filter] in *. rewrite IH.
  destruct (ties_with c x) eqn:Ex, (ties_with c y) eqn:Ey; try reflexivity.
  unfold ties_with in *. by rewrite (SFeqb_ltb _ _ c Ex Ey) in E.
Qed.

Lemma sort_desc_stable (c : spec_float) (l : list LenderMatchDTO) :
  List.filter (ties_with c) (sort_desc l) = List.filter (ties_with c) l.
Proof.
  induction l as [|x l IH]; [done|].
  cbn [sort_desc foldr]. fold (sort_desc l). rewrite insert_desc_stable.
  cbn [List.filter]. by rewrite IH.
Qed.

(** A list has one stable arrangement by descending confidence: whatever
    stable sort the interpreter runs, it returns [sort_desc]. *)
Lemma stable_descending_unique (l1 l2 : list LenderMatchDTO) :
  Forall (fun j => isnan (confidence_score j) = false) l1 ->
  Permutation l1 l2 ->
  StronglySorted descending l1 ->
  StronglySorted descending l2 ->
  (forall c, List.filter (ties_with c) l1 = List.filter (ties_with c) l2) ->
  l1 = l2.
Proof.
  revert l2. induction l1 as [|a l1 IH]; intros l2 Hn Hp H1 H2 Hf.
  - by apply Permutation_nil in Hp.
  - destruct l2 as [|b l2]; [by apply Permutation_sym, Permutation_nil in Hp|].
    apply Forall_cons in Hn as [Hna Hn].
    apply StronglySorted_inv in H1 as [H1 Ha].
    apply StronglySorted_inv in H2 as [H2 Hb].
    rewrite List.Forall_forall in Ha, Hb.
    assert (SFleb (confidence_score a) (confidence_score a) = true) as Haa.
    { unfold SFleb. by rewrite SFcompare_refl. }
    assert (SFleb (confidence_score b) (confidence_score a) = true) as Hba.
    { assert (In b (a :: l1)) as [<-|Hin]
        by (eapply Permutation_in; [symmetry; exact Hp|by left]); [done|by apply Ha]. }
    assert (SFleb (confidence_score a) (confidence_score b) = true) as Hab.
    { assert (In a (b :: l2)) as [->|Hin]
        by (eapply Permutation_in; [exact Hp|by left]); [done|by apply Hb]. }
    assert (a = b) as <-.
    { pose proof (Hf (confidence_score a)) as Hc. cbn [List.filter] in Hc.
      assert (ties_with (confidence_score a) a = true) as Ta
        by (by apply SFleb_antisym).
      assert (ties_with (confidence_score a) b = true) as Tb
        by (by apply SFleb_antisym).
      rewrite Ta, Tb in Hc. by injection Hc. }
    f_equal. apply IH; [done|by eapply Permutation_cons_inv|done|done|].
    intros c. specialize (Hf c). cbn [List.filter] in Hf.
    destruct (ties_with c a); [by injection Hf|done].
Qed.

Lemma stable_sort_is_sort_desc (l sorted : list LenderMatchDTO) :
  Forall (fun j => isnan (confidence_score j) = false) l ->
  Permutation sorted l ->
  StronglySorted descending sorted ->
  (forall c, List.filter (ties_with c) sorted = List.filter (ties_with c) l) ->
  sorted = sort_desc l.
Proof.
  intros Hn Hp Hs Hf. apply stable_descending_unique.
  - by rewrite Hp.
  - by rewrite sort_desc_perm.
  - done.
  - by apply sort_desc_sorted.
  - intros c. by rewrite sort_desc_stable.
Qed.

(** ** The gathered list does not depend on the order of completion *)

Lemma fill_slots_all {A} (tasks : list (result A)) (completion : list nat)
    (slots : list (option (result A))) :
  length slots = length tasks ->
  (forall j, j ∉ completion -> slots !! j = (Some <$> tasks) !! j) ->
  fill_slots tasks completion slots = Some <$> tasks.
Proof.
  revert slots. induction completion as [|i completion IH]; intros slots Hlen Hout.
  - apply list_eq. intros j. apply Hout. apply not_elem_of_nil.
  - cbn [fill_slots foldl]. apply IH; [by rewrite length_insert|].
    intros j Hj. destruct (decide (i = j)) as [->|Hne].
    + rewrite list_lookup_fmap. destruct (tasks !! j) eqn:E.
      * apply lookup_lt_Some in E. rewrite list_lookup_insert_eq; [done|lia].
      * apply lookup_ge_None in E. rewrite list_insert_ge by lia.
        rewrite lookup_ge_None_2 by lia. done.
    + rewrite list_lookup_insert_ne by done.
      apply Hout. rewrite elem_of_cons. intros [?|?]; congruence.
Qed.

Lemma mapM_id_Some {A} (l : list A) : mapM id (Some <$> l) = Some l.
Proof. induction l as [|x l IH]; [done|]. cbn. by rewrite IH. Qed.

Lemma gather_by_completion_any_order {A} (tasks : list (result A)) (completion : list nat) :
  Permutation completion (seq 0 (length tasks)) ->
  gather_by_completion tasks completion = Some (gather_return_exceptions tasks).
Proof.
  intros Hp. unfold gather_by_completion, gather_return_exceptions.
  rewrite fill_slots_all; [apply mapM_id_Some|by rewrite length_replicate|].
  intros j Hj. rewrite list_lookup_fmap.
  assert (length tasks <= j)%nat as Hge.
  { destruct (decide (j < length tasks)%nat) as [Hlt|]; [|lia].
    exfalso. apply Hj. rewrite Hp. apply elem_of_seq. lia. }
  rewrite (lookup_ge_None_2 tasks) by done.
  apply lookup_ge_None_2. by rewrite length_replicate.
Qed.

(** ** What [evaluate_application] returns *)

Lemma evaluate_application_eq (w : world) (application_id : text) (application_data : pyval)
    (lenders : list (gmap text pyval)) :
  evaluate_application w application_id application_data lenders =
    Ok {| application_id := application_id;
          matched_lenders :=
            sort_desc (List.filter is_matched (successes (outcomes w application_data lenders)));
          unmatched_lenders :=
            sort_desc (List.filter (fun j => negb (is_matched j))
                         (successes (outcomes w application_data lenders)));
          analysis_timestamp := utcnow w;
          total_lenders_evaluated := Z.of_nat (length lenders) |}.
Proof.
  unfold evaluate_application, gather_return_exceptions.
  fold (outcomes w application_data lenders).
  by rewrite partition_results_spec.
Qed.

Lemma evaluate_single_Ok (w : world) (i : nat) (application_data : pyval)
    (lender : gmap text pyval) (j : LenderMatchDTO) :
  _evaluate_single_lender w i application_data lender = Ok j ->
  exists analysis,
    analysis_of w i application_data lender = Ok analysis /\
    _convert_to_lender_match_dto (lender_id_of w lender) (lender_name_of lender) analysis = Ok j.
Proof.
  unfold _evaluate_single_lender, analysis_of. intros H.
  apply bind_Ok in H as (prompt & -> & H). simpl.
  apply try_except_Ok in H. apply bind_Ok in H as (analysis & Ha & H). eauto.
Qed.

Lemma successes_outcomes (w : world) (application_data : pyval)
    (lenders : list (gmap text pyval)) (j : LenderMatchDTO) :
  j ∈ successes (outcomes w application_data lenders) <->
  exists i lender,
    lenders !! i = Some lender /\ _evaluate_single_lender w i application_data lender = Ok j.
Proof.
  unfold successes, outcomes. rewrite list_elem_of_omap. split.
  - intros ([j'|e] & Hin & Heq); [|discriminate]. injection Heq as ->.
    apply list_elem_of_lookup in Hin as [i Hi].
    rewrite list_lookup_imap in Hi.
    destruct (lenders !! i) as [lender|] eqn:E; [|discriminate].
    injection Hi as Hi. eauto.
  - intros (i & lender & Hl & Hj). exists (Ok j). split; [|done].
    apply list_elem_of_lookup. exists i. rewrite list_lookup_imap, Hl. simpl. by rewrite Hj.
Qed.

Lemma successes_in_unit (w : world) (application_data : pyval) (lenders : list (gmap text pyval)) :
  Forall (fun j => in_unit_interval (confidence_score j) = true)
    (successes (outcomes w application_data lenders)).
Proof.
  apply Forall_forall. intros j (i & lender & _ & Hj)%successes_outcomes.
  apply evaluate_single_Ok in Hj as (analysis & _ & Hc).
  apply convert_Ok in Hc as (d & v & _ & _ & Hv).
  by eapply unit_interval_field_range.
Qed.

(** ** Stripping and fences *)

Lemma lstrip_clean_head (s : text) : clean_head (lstrip s).
Proof. induction s as [|c s IH]; simpl; [done|]. by destruct (isspace c) eqn:E. Qed.

Lemma lstrip_id (t : text) : clean_head t -> lstrip t = t.
Proof. destruct t as [|c t]; simpl; [done|]. by intros ->. Qed.

Lemma lstrip_suffix (s : text) : exists ws, s = ws ++ lstrip s.
Proof.
  induction s as [|c s [ws IH]]; simpl; [by exists []|].
  destruct (isspace c); [|by exists []].
  exists (c :: ws). simpl. by f_equal.
Qed.

Lemma lstrip_spaces (ws : text) : Forall (fun c => isspace c = true) ws -> lstrip ws = [].
Proof. induction 1 as [|c ws Hc _ IH]; simpl; [done|]. by rewrite Hc. Qed.

Lemma lstrip_app (p q : text) :
  lstrip (p ++ q) = match lstrip p with [] => lstrip q | t => t ++ q end.
Proof.
  induction p as [|c p IH]; simpl; [done|].
  by destruct (isspace c).
Qed.

Lemma rstrip_clean_tail (s : text) : clean_tail (rstrip s).
Proof. unfold clean_tail, rstrip. rewrite rev_involutive. apply lstrip_clean_head. Qed.

Lemma rstrip_id (t : text) : clean_tail t -> rstrip t = t.
Proof. unfold clean_tail, rstrip. intros H. by rewrite lstrip_id, rev_involutive. Qed.

Lemma rstrip_prefix (t : text) : exists ws, t = rstrip t ++ ws.
Proof.
  unfold rstrip. destruct (lstrip_suffix (rev t)) as [ws E].
  exists (rev ws). rewrite <- rev_app_distr, <- E. by rewrite rev_involutive.
Qed.

Lemma rstrip_clean_head (t : text) : clean_head t -> clean_head (rstrip t).
Proof.
  destruct (rstrip_prefix t) as [ws E]. intros H.
  destruct (rstrip t) as [|c r]; [done|]. rewrite E in H. exact H.
Qed.

Lemma strip_id (t : text) : clean_head t -> clean_tail t -> strip t = t.
Proof. intros Hh Ht. unfold strip. by rewrite lstrip_id, rstrip_id. Qed.

Lemma strip_idempotent (s : text) : strip (strip s) = strip s.
Proof.
  apply strip_id; unfold strip.
  - apply rstrip_clean_head, lstrip_clean_head.
  - apply rstrip_clean_tail.
Qed.

Lemma strip_between_spaces (sep1 payload sep2 : text) :
  Forall (fun c => isspace c = true) sep1 ->
  Forall (fun c => isspace c = true) sep2 ->
  strip (sep1 ++ payload ++ sep2) = strip payload.
Proof.
  intros H1 H2. unfold strip.
  rewrite lstrip_app, (lstrip_spaces sep1 H1), lstrip_app.
  destruct (lstrip payload) as [|c t] eqn:E.
  - by rewrite (lstrip_spaces sep2 H2).
  - unfold rstrip. rewrite rev_app_distr, lstrip_app.
    rewrite lstrip_spaces; [reflexivity|]. by apply Forall_rev.
Qed.

Lemma startswith_app (p s : text) : startswith (p ++ s) p = true.
Proof. induction p as [|a p IH]; simpl; [done|]. by rewrite N.eqb_refl. Qed.

Lemma startswith_app_l (s p q : text) : startswith s (p ++ q) = true -> startswith s p = true.
Proof.
  revert s. induction p as [|a p IH]; intros s; simpl; [done|].
  destruct s as [|b s]; [done|].
  intros [-> H]%andb_true_iff. by rewrite (IH _ H).
Qed.

Lemma startswith_app_both (p s q : text) : startswith (p ++ s) (p ++ q) = startswith s q.
Proof. induction p as [|a p IH]; simpl; [done|]. by rewrite N.eqb_refl. Qed.

Lemma endswith_app (s p : text) : endswith (s ++ p) p = true.
Proof. unfold endswith. rewrite rev_app_distr. apply startswith_app. Qed.

Lemma slice_to_minus_app (s p : text) : slice_to_minus (length p) (s ++ p) = s.
Proof.
  unfold slice_to_minus. rewrite length_app.
  replace (length s + length p - length p)%nat with (length s) by lia.
  by rewrite take_app_length.
Qed.

(** A fenced payload, the opening fence bare or tagged [json], cleans to
    the payload stripped. *)
Lemma clean_fenced (tag sep1 payload sep2 : text) :
  tag = [] \/ tag = txt "json" ->
  sep1 <> [] ->
  Forall (fun c => isspace c = true) sep1 ->
  Forall (fun c => isspace c = true) sep2 ->
  _clean_response_text (fenced tag sep1 payload sep2) = strip payload.
Proof.
  intros Htag Hne H1 H2. unfold _clean_response_text.
  set (rest := sep1 ++ payload ++ sep2 ++ txt "```").
  assert (strip (fenced tag sep1 payload sep2) = fenced tag sep1 payload sep2) as ->.
  { apply strip_id; [done|]. unfold clean_tail, fenced.
    rewrite !rev_app_distr. done. }
  assert ((if startswith (fenced tag sep1 payload sep2) (txt "```json")
           then slice_from 7 (fenced tag sep1 payload sep2)
           else if startswith (fenced tag sep1 payload sep2) (txt "```")
                then slice_from 3 (fenced tag sep1 payload sep2)
                else fenced tag sep1 payload sep2) = rest) as ->.
  { subst rest. destruct Htag as [-> | ->]; unfold fenced.
    - destruct sep1 as [|c sep1]; [done|]. apply Forall_cons in H1 as [Hc _].
      assert ((106 =? c)%N = false) as Hj.
      { destruct (N.eqb_spec 106 c) as [<-|]; [discriminate Hc|done]. }
      change (txt "```json") with (txt "```" ++ txt "json").
      rewrite startswith_app_both.
      change (txt "json") with (106%N :: txt "son").
      cbn [app startswith]. rewrite Hj. cbn [andb].
      rewrite startswith_app. unfold slice_from.
      change 3%nat with (length (txt "```")). by rewrite drop_app_length.
    - rewrite (app_assoc (txt "```") (txt "json")).
      change (txt "```" ++ txt "json") with (txt "```json").
      rewrite startswith_app. unfold slice_from.
      change 7%nat with (length (txt "```json")). by rewrite drop_app_length. }
  subst rest.
  replace (sep1 ++ payload ++ sep2 ++ txt "```")
    with ((sep1 ++ payload ++ sep2) ++ txt "```") by (by rewrite <- !app_assoc).
  rewrite endswith_app. change 3%nat with (length (txt "```")).
  rewrite slice_to_minus_app. by apply strip_between_spaces.
Qed.

(** A text that carries no fence cleans to itself stripped. *)
Lemma clean_unfenced (payload : text) :
  startswith (strip payload) (txt "```") = false ->
  endswith (strip payload) (txt "```") = false ->
  _clean_response_text payload = strip payload.
Proof.
  intros Hs He. unfold _clean_response_text.
  destruct (startswith (strip payload) (txt "```json")) eqn:E.
  - apply (startswith_app_l _ (txt "```") (txt "json")) in E. congruence.
  - rewrite Hs, He. apply strip_idempotent.
Qed.

(** ** Reports *)

Lemma filter_split_perm (p : LenderMatchDTO -> bool) (l : list LenderMatchDTO) :
  Permutation (List.filter p l ++ List.filter (fun j => negb (p j)) l) l.
Proof.
  induction l as [|x l IH]; simpl; [done|].
  destruct (p x); simpl.
  - by constructor.
  - rewrite <- Permutation_middle. by constructor.
Qed.

Lemma in_sort_filter (p : LenderMatchDTO -> bool) (l : list LenderMatchDTO) (j : LenderMatchDTO) :
  In j (sort_desc (List.filter p l)) <-> In j l /\ p j = true.
Proof.
  rewrite <- filter_In. split; apply Permutation_in; [|symmetry]; apply sort_desc_perm.
Qed.

Lemma Forall_sort_filter (P : LenderMatchDTO -> Prop) (p : LenderMatchDTO -> bool)
    (l : list LenderMatchDTO) :
  (forall j, In j l -> p j = true -> P j) -> Forall P (sort_desc (List.filter p l)).
Proof.
  intros H. apply List.Forall_forall. intros j [Hin Hp]%in_sort_filter. by apply H.
Qed.

Lemma successes_In_unit (w : world) (application_data : pyval) (lenders : list (gmap text pyval))
    (j : LenderMatchDTO) :
  In j (successes (outcomes w application_data lenders)) ->
  in_unit_interval (confidence_score j) = true.
Proof.
  intros Hin. pose proof (successes_in_unit w application_data lenders) as H.
  rewrite List.Forall_forall in H. by apply H.
Qed.

Lemma below_half (c : spec_float) :
  in_unit_interval c = true -> SFleb Float.half c = false -> SFltb c Float.half = true.
Proof.
  intros Hu Hl. apply SFleb_false_ltb; [done| |done]. by apply in_unit_not_nan.
Qed.

(** C1 -- partition invariant: whatever the application, the lenders and
    the answers of the oracle, [evaluate_application] returns a report in
    which every judgment of [matched_lenders] has [confidence_score >= 0.5]
    and every judgment of [unmatched_lenders] has [confidence_score < 0.5]. *)
Theorem partition_invariant (w : world) (application_id : text) (application_data : pyval)
    (lenders : list (gmap text pyval)) :
  exists report,
    evaluate_application w application_id application_data lenders = Ok report /\
    Forall (fun j => SFleb Float.half (confidence_score j) = true) (matched_lenders report) /\
    Forall (fun j => SFltb (confidence_score j) Float.half = true) (unmatched_lenders report).
Proof.
  eexists. split; [apply evaluate_application_eq|]. cbn [matched_lenders unmatched_lenders]. split.
  - apply Forall_sort_filter. intros j _ Hm. exact Hm.
  - apply Forall_sort_filter. intros j Hin Hm.
    apply below_half; [by eapply successes_In_unit|].
    by apply negb_true_iff in Hm.
Qed.

(** C3 -- failure isolation: [evaluate_application] always returns a
    report, whichever evaluations raise; its two lists together hold
    exactly the judgments of the evaluations that succeeded, a judgment is
    in them only if it is the outcome of some lender's evaluation, and
    [total_lenders_evaluated] is the length of the lender list. *)
Theorem failure_isolation (w : world) (application_id : text) (application_data : pyval)
    (lenders : list (gmap text pyval)) :
  exists report,
    evaluate_application w application_id application_data lenders = Ok report /\
    Permutation (matched_lenders report ++ unmatched_lenders report)
      (successes (outcomes w application_data lenders)) /\
    (forall j, In j (matched_lenders report ++ unmatched_lenders report) <->
       exists i lender,
         lenders !! i = Some lender /\
         _evaluate_single_lender w i application_data lender = Ok j) /\
    total_lenders_evaluated report = Z.of_nat (length lenders).
Proof.
  eexists. split; [apply evaluate_application_eq|].
  cbn [matched_lenders unmatched_lenders total_lenders_evaluated].
  assert (Permutation
            (sort_desc (List.filter is_matched (successes (outcomes w application_data lenders))) ++
             sort_desc (List.filter (fun j => negb (is_matched j))
                          (successes (outcomes w application_data lenders))))
            (successes (outcomes w application_data lenders))) as Hp.
  { rewrite !sort_desc_perm. apply filter_split_perm. }
  split; [exact Hp|]. split; [|reflexivity].
  intros j. rewrite <- successes_outcomes, <- list_elem_of_In.
  split; intros H; [by rewrite <- Hp | by rewrite Hp].
Qed.

Lemma successes_not_nan (w : world) (application_data : pyval) (lenders : list (gmap text pyval))
    (p : LenderMatchDTO -> bool) :
  Forall (fun j => isnan (confidence_score j) = false)
    (List.filter p (successes (outcomes w application_data lenders))).
Proof.
  apply List.Forall_forall. intros j [Hin _]%filter_In.
  by apply in_unit_not_nan, (successes_In_unit w application_data lenders).
Qed.

(** C6 -- sort rule: in the report each of the two lists is sorted by
    descending confidence; the judgments that tie at any confidence [c]
    stand in the order their lenders have in the input list; and the list
    of outcomes the report is built from is the same for every order in
    which the evaluations complete. *)
Theorem ranking_is_descending_and_stable (w : world) (application_id : text)
    (application_data : pyval) (lenders : list (gmap text pyval)) :
  exists report,
    evaluate_application w application_id application_data lenders = Ok report /\
    StronglySorted descending (matched_lenders report) /\
    StronglySorted descending (unmatched_lenders report) /\
    (forall c,
       List.filter (ties_with c) (matched_lenders report) =
       List.filter (ties_with c)
         (List.filter is_matched (successes (outcomes w application_data lenders)))) /\
    (forall c,
       List.filter (ties_with c) (unmatched_lenders report) =
       List.filter (ties_with c)
         (List.filter (fun j => negb (is_matched j))
            (successes (outcomes w application_data lenders)))) /\
    (forall completion,
       Permutation completion (seq 0 (length lenders)) ->
       gather_by_completion (outcomes w application_data lenders) completion =
       Some (outcomes w application_data lenders)).
Proof.
  eexists. split; [apply evaluate_application_eq|].
  cbn [matched_lenders unmatched_lenders].
  repeat split.
  - apply sort_desc_sorted, successes_not_nan.
  - apply sort_desc_sorted, successes_not_nan.
  - intros c. apply sort_desc_stable.
  - intros c. apply sort_desc_stable.
  - intros completion Hp. apply gather_by_completion_any_order.
    unfold outcomes. by rewrite length_imap.
Qed.

Lemma evaluated_verdict (w : world) (i : nat) (application_data : pyval)
    (lender analysis : gmap text pyval) (j : LenderMatchDTO) :
  analysis_of w i application_data lender = Ok (PDict analysis) ->
  _evaluate_single_lender w i application_data lender = Ok j ->
  is_matched j = verdict analysis.
Proof.
  intros Ha (analysis' & Ha' & Hc)%evaluate_single_Ok.
  rewrite Ha in Ha'. injection Ha' as <-.
  apply convert_Ok in Hc as (d & v & [= <-] & Hadj & Hv).
  by eapply adjust_confidence_verdict.
Qed.

(** Where the judgment of a lender stands in the report. *)
Lemma judgment_placement (w : world) (application_id : text)
    (application_data : pyval) (lenders : list (gmap text pyval)) (i : nat)
    (lender : gmap text pyval) (j : LenderMatchDTO) :
  lenders !! i = Some lender ->
  _evaluate_single_lender w i application_data lender = Ok j ->
  exists report,
    evaluate_application w application_id application_data lenders = Ok report /\
    (In j (matched_lenders report) <-> is_matched j = true) /\
    (In j (unmatched_lenders report) <-> is_matched j = false).
Proof.
  intros Hl Hj. eexists. split; [apply evaluate_application_eq|].
  cbn [matched_lenders unmatched_lenders]. rewrite !in_sort_filter.
  assert (In j (successes (outcomes w application_data lenders))) as Hin.
  { apply list_elem_of_In, successes_outcomes. eauto. }
  split; [tauto|]. rewrite negb_true_iff. tauto.
Qed.

(** C7 -- the partition agrees with the oracle's verdict: when the
    payload of a lender decodes to a [dict] and its evaluation yields a
    judgment, that judgment is in [matched_lenders] exactly when the
    payload's [overall_match] is true, and in [unmatched_lenders] exactly
    when it is not.  The verdict is read as the service reads it, by
    truthiness, an absent field counting as false; for a payload that
    carries a boolean it is that boolean. *)
Theorem partition_agrees_with_verdict (w : world) (application_id : text)
    (application_data : pyval) (lenders : list (gmap text pyval)) (i : nat)
    (lender analysis : gmap text pyval) (j : LenderMatchDTO) :
  lenders !! i = Some lender ->
  analysis_of w i application_data lender = Ok (PDict analysis) ->
  _evaluate_single_lender w i application_data lender = Ok j ->
  exists report,
    evaluate_application w application_id application_data lenders = Ok report /\
    (In j (matched_lenders report) <-> verdict analysis = true) /\
    (In j (unmatched_lenders report) <-> verdict analysis = false) /\
    (forall b, analysis !! txt "overall_match" = Some (PBool b) ->
       (In j (matched_lenders report) <-> b = true) /\
       (In j (unmatched_lenders report) <-> b = false)).
Proof.
  intros Hl Ha Hj.
  destruct (judgment_placement w application_id application_data lenders i lender j Hl Hj)
    as (report & He & Hm & Hu).
  exists report. split; [exact He|].
  rewrite (evaluated_verdict w i application_data lender analysis j Ha Hj) in Hm, Hu.
  split; [exact Hm|]. split; [exact Hu|].
  intros b Hb. unfold verdict in Hm, Hu. rewrite Hb in Hm, Hu. by split.
Qed.

(** ** The confidence adjustment *)

(** On a [float] the adjustment never raises, and reads as the three cases
    of the source. *)
Lemma adjust_confidence_float (overall_match : pyval) (c : spec_float) :
  adjust_confidence overall_match (PFloat c) =
    Ok (PFloat (if negb (Py.truthy overall_match) && SFleb Float.half c then Float.c0_4
                else if Py.truthy overall_match && SFltb c Float.half then Float.c0_6
                else c)).
Proof.
  unfold adjust_confidence. destruct (Py.truthy overall_match); simpl.
  - by destruct (SFltb c Float.half).
  - by destruct (SFleb Float.half c).
Qed.

(** C2 -- confidence-consistency correction: for a payload converted into a
    judgment, if [overall_match] is false and the reported confidence is
    [>= 0.5] the judgment's confidence is exactly 0.4; if [overall_match] is
    true and the reported confidence is [< 0.5] it is exactly 0.6; in every
    other case it is the reported confidence, as the DTO reads it. *)
Theorem confidence_consistency_correction (lender_id : text) (lender_name : pyval)
    (analysis : gmap text pyval) (j : LenderMatchDTO) :
  _convert_to_lender_match_dto lender_id lender_name (PDict analysis) = Ok j ->
  (verdict analysis = false ->
   Py.ge_float (reported_confidence analysis) Float.half = Ok true ->
   confidence_score j = Float.c0_4) /\
  (verdict analysis = true ->
   Py.lt_float (reported_confidence analysis) Float.half = Ok true ->
   confidence_score j = Float.c0_6) /\
  (~ (verdict analysis = false /\
      Py.ge_float (reported_confidence analysis) Float.half = Ok true) ->
   ~ (verdict analysis = true /\
      Py.lt_float (reported_confidence analysis) Float.half = Ok true) ->
   Pydantic.unit_interval_field (reported_confidence analysis) = Some (confidence_score j) /\
   forall c, reported_confidence analysis = PFloat c -> confidence_score j = c).
Proof.
  intros (d & v & [= <-] & Hadj & Hv)%convert_Ok.
  assert (forall c, v = reported_confidence analysis ->
                    reported_confidence analysis = PFloat c -> confidence_score j = c) as Hsame.
  { intros c -> Hc. rewrite Hc in Hv. simpl in Hv.
    destruct (SFleb Float.zero c && SFleb c Float.one); [by injection Hv|discriminate]. }
  unfold verdict. unfold adjust_confidence in Hadj.
  destruct (Py.truthy (default (PBool false) (analysis !! txt "overall_match")));
    simpl in Hadj; apply bind_Ok in Hadj as (b & Hcmp & Hadj);
    destruct b; injection Hadj as <-.
  - split; [discriminate|]. split.
    + intros _ _. simpl in Hv. by injection Hv.
    + intros _ H. by destruct H.
  - split; [discriminate|]. split.
    + intros _ H. congruence.
    + intros _ _. split; [exact Hv|]. intros c. by apply Hsame.
  - split; [|split].
    + intros _ _. simpl in Hv. by injection Hv.
    + discriminate.
    + intros H _. by destruct H.
  - split; [|split].
    + intros _ H. congruence.
    + discriminate.
    + intros _ _. split; [exact Hv|]. intros c. by apply Hsame.
Qed.

(** The three cases the specification names: (false, 0.9) gives 0.4,
    (true, 0.1) gives 0.6, (true, 0.8) is left at 0.8. *)
Lemma confidence_consistency_correction_cases :
  (_convert_to_lender_match_dto (txt "a") (PStr (txt "A")) (PDict Sample.no_but_0_9)
     = Ok (Sample.judgment "a" "A" Float.c0_4) /\
   confidence_score (Sample.judgment "a" "A" Float.c0_4) = Float.c0_4) /\
  (_convert_to_lender_match_dto (txt "a") (PStr (txt "A")) (PDict Sample.yes_but_0_1)
     = Ok (Sample.judgment "a" "A" Float.c0_6) /\
   confidence_score (Sample.judgment "a" "A" Float.c0_6) = Float.c0_6) /\
  (_convert_to_lender_match_dto (txt "a") (PStr (txt "A")) (PDict Sample.yes_and_0_8)
     = Ok (Sample.judgment "a" "A" Sample.c0_8) /\
   reported_confidence Sample.yes_and_0_8 = PFloat Sample.c0_8 /\
   confidence_score (Sample.judgment "a" "A" Sample.c0_8) = Sample.c0_8).
Proof.
  assert (_convert_to_lender_match_dto (txt "a") (PStr (txt "A")) (PDict Sample.no_but_0_9)
          = Ok (Sample.judgment "a" "A" Float.c0_4)) as H1 by (vm_compute; reflexivity).
  assert (_convert_to_lender_match_dto (txt "a") (PStr (txt "A")) (PDict Sample.yes_but_0_1)
          = Ok (Sample.judgment "a" "A" Float.c0_6)) as H2 by (vm_compute; reflexivity).
  assert (_convert_to_lender_match_dto (txt "a") (PStr (txt "A")) (PDict Sample.yes_and_0_8)
          = Ok (Sample.judgment "a" "A" Sample.c0_8)) as H3 by (vm_compute; reflexivity).
  split; [|split].
  - split; [exact H1|].
    destruct (confidence_consistency_correction _ _ _ _ H1) as (H & _ & _).
    apply H; vm_compute; reflexivity.
  - split; [exact H2|].
    destruct (confidence_consistency_correction _ _ _ _ H2) as (_ & H & _).
    apply H; vm_compute; reflexivity.
  - split; [exact H3|].
    assert (reported_confidence Sample.yes_and_0_8 = PFloat Sample.c0_8) as Hr
      by (vm_compute; reflexivity).
    split; [exact Hr|].
    destruct (confidence_consistency_correction _ _ _ _ H3) as (_ & _ & H).
    apply H; [vm_compute; intros [? ?]; discriminate
             |vm_compute; intros [? ?]; discriminate
             |exact Hr].
Defined.

(** ** The empty lender list *)

(** C4, as the code has it -- the orchestrator accepts an empty lender
    list and returns the empty report; the precondition is the routes':
    when the lender service lists no lender, both routes raise
    [HTTPException(400, "No lenders available for evaluation")] and no
    report is produced. *)
Theorem empty_lender_list_is_refused_by_the_routes (w : world) (s : Routes.services) :
  (forall application_id application_data,
     evaluate_application w application_id application_data [] =
       Ok {| application_id := application_id; matched_lenders := [];
             unmatched_lenders := []; analysis_timestamp := utcnow w;
             total_lenders_evaluated := 0 |}) /\
  (forall application_id application_data,
     Routes.get_application_data_dict s application_id = Ok application_data ->
     Py.truthy application_data = true ->
     Routes.list_lenders s = Ok [] ->
     Routes.evaluate_existing_application w s application_id =
       Raise (HTTPException 400 "No lenders available for evaluation")) /\
  (forall application created application_data,
     Routes.create_application s application = Ok created ->
     Routes.get_application_data_dict s (fst created) = Ok application_data ->
     Routes.list_lenders s = Ok [] ->
     Routes.submit_and_evaluate_application w s application =
       Raise (HTTPException 400 "No lenders available for evaluation")).
Proof.
  split; [reflexivity|]. split.
  - intros application_id application_data Hd Ht Hl.
    unfold Routes.evaluate_existing_application. rewrite Hd. simpl. rewrite Ht. simpl.
    by rewrite Hl.
  - intros application created application_data Hc Hd Hl.
    unfold Routes.submit_and_evaluate_application. rewrite Hc. simpl. rewrite Hd. simpl.
    by rewrite Hl.
Qed.

Lemma empty_lender_list_is_refused_by_the_routes_witness :
  Routes.evaluate_existing_application Sample.reference Sample.no_lenders (txt "app-1") =
    Raise (HTTPException 400 "No lenders available for evaluation") /\
  Routes.submit_and_evaluate_application Sample.reference Sample.no_lenders PNone =
    Raise (HTTPException 400 "No lenders available for evaluation").
Proof.
  pose proof (empty_lender_list_is_refused_by_the_routes
                Sample.reference Sample.no_lenders) as (_ & H1 & H2).
  split.
  - apply (H1 (txt "app-1") (PDict {[ txt "status" := PStr (txt "pending") ]}));
      vm_compute; reflexivity.
  - apply (H2 PNone (txt "app-1", PNone) (PDict {[ txt "status" := PStr (txt "pending") ]}));
      vm_compute; reflexivity.
Defined.

(** C4, as the specification states it, fails: given no lender the
    orchestrator returns a report. *)
Lemma empty_lender_list_yields_a_report :
  evaluate_application Sample.reference (txt "app-1") PNone [] =
    Ok {| application_id := txt "app-1"; matched_lenders := []; unmatched_lenders := [];
          analysis_timestamp := 0; total_lenders_evaluated := 0 |}.
Proof. reflexivity. Qed.

(** ** The repair pass *)

(** C5 -- what the code does in place of the repair pass: when the cleaned
    text does not parse, looking up [_fix_json_issues] on the service
    raises [AttributeError]; nothing is repaired, the text is not parsed a
    second time, and the evaluation of that lender fails. *)
Theorem repair_pass_is_missing (w : world) (response_text : text) :
  json_loads w (_clean_response_text response_text) = Raise JSONDecodeError ->
  parse_response w response_text = Raise (AttributeError "_fix_json_issues") /\
  (forall i application_data lender prompt response,
     get_eligibility_analysis_prompt w application_data (lender_name_of lender)
       (default (PList []) (lender !! txt "criteria")) = Ok prompt ->
     post w i prompt = replied response ->
     _extract_text_from_response response = Ok response_text ->
     _evaluate_single_lender w i application_data lender =
       Raise (EvaluationError (AttributeError "_fix_json_issues"))).
Proof.
  intros Hj.
  assert (parse_response w response_text = Raise (AttributeError "_fix_json_issues")) as Hp.
  { unfold parse_response. by rewrite Hj. }
  split; [exact Hp|].
  intros i application_data lender prompt response Hprompt Hpost Htext.
  unfold _evaluate_single_lender. rewrite Hprompt. simpl.
  unfold request_analysis. rewrite Hpost, Htext. simpl. by rewrite Hp.
Qed.

Lemma repair_pass_is_missing_witness :
  json_loads Sample.broken_json (_clean_response_text Sample.trailing_comma)
    = Raise JSONDecodeError /\
  parse_response Sample.broken_json Sample.trailing_comma
    = Raise (AttributeError "_fix_json_issues") /\
  _evaluate_single_lender Sample.broken_json 0 PNone (Sample.lender "a" "A") =
    Raise (EvaluationError (AttributeError "_fix_json_issues")).
Proof.
  assert (json_loads Sample.broken_json (_clean_response_text Sample.trailing_comma)
          = Raise JSONDecodeError) as H
    by (vm_compute; reflexivity).
  split; [exact H|].
  destruct (repair_pass_is_missing _ _ H) as [Hp He].
  split; [exact Hp|].
  apply (He 0%nat PNone (Sample.lender "a" "A") [] (Sample.gemini_body Sample.trailing_comma));
    vm_compute; reflexivity.
Defined.

(** ** Fences *)

(** C8, as the code has it -- for a payload that neither begins nor ends
    with a fence once stripped (no JSON text does), wrapping it in a fenced
    block whose opening fence is bare or tagged [json] does not change what
    the normalizer returns. *)
Theorem fence_stripping_idempotence (w : world) (tag sep1 payload sep2 : text) :
  tag = [] \/ tag = txt "json" ->
  sep1 <> [] ->
  Forall (fun c => isspace c = true) sep1 ->
  Forall (fun c => isspace c = true) sep2 ->
  startswith (strip payload) (txt "```") = false ->
  endswith (strip payload) (txt "```") = false ->
  _clean_response_text (fenced tag sep1 payload sep2) = _clean_response_text payload /\
  parse_response w (fenced tag sep1 payload sep2) = parse_response w payload.
Proof.
  intros Htag Hne H1 H2 Hs He.
  assert (_clean_response_text (fenced tag sep1 payload sep2) = _clean_response_text payload)
    as Hc by (by rewrite clean_fenced, clean_unfenced).
  split; [exact Hc|]. unfold parse_response. by rewrite Hc.
Qed.

Lemma fence_stripping_idempotence_witness :
  parse_response Sample.reference (fenced (txt "json") Sample.nl Sample.yes_0_9 Sample.nl)
    = parse_response Sample.reference Sample.yes_0_9 /\
  parse_response Sample.reference (fenced [] Sample.nl Sample.yes_0_9 Sample.nl)
    = parse_response Sample.reference Sample.yes_0_9 /\
  parse_response Sample.reference Sample.yes_0_9 = Ok (PDict Sample.yes_and_0_9).
Proof.
  split; [|split].
  - apply (fence_stripping_idempotence Sample.reference (txt "json"));
      [by right|discriminate|repeat constructor|repeat constructor|reflexivity|reflexivity].
  - apply (fence_stripping_idempotence Sample.reference []);
      [by left|discriminate|repeat constructor|repeat constructor|reflexivity|reflexivity].
  - vm_compute. reflexivity.
Defined.

(** C8, as the specification states it, fails for a language tag the code
    does not know: the fence tagged [JSON] leaves the tag in the text, which
    then does not parse, while the bare payload does. *)
Lemma fence_with_another_tag_differs :
  _clean_response_text (fenced (txt "JSON") Sample.nl (txt "{}") Sample.nl)
    = txt "JSON" ++ Sample.nl ++ txt "{}" /\
  json_loads Sample.reference (txt "JSON" ++ Sample.nl ++ txt "{}") = Raise JSONDecodeError /\
  parse_response Sample.reference (txt "{}") = Ok (PDict ∅) /\
  parse_response Sample.reference (fenced (txt "JSON") Sample.nl (txt "{}") Sample.nl)
    <> parse_response Sample.reference (txt "{}").
Proof. repeat split; try (vm_compute; reflexivity). vm_compute. discriminate. Qed.

(** ** The range of the confidence *)

(** C9 -- every judgment of a report has its confidence in [0, 1]; and
    when the confidence of a lender's payload, after the adjustment, is not
    in [0, 1], the evaluation of that lender raises, so that (C3) the report
    holds no judgment for it. *)
Theorem confidence_is_in_unit_interval (w : world) (application_id : text)
    (application_data : pyval) (lenders : list (gmap text pyval)) :
  (exists report,
     evaluate_application w application_id application_data lenders = Ok report /\
     Forall (fun j => in_unit_interval (confidence_score j) = true)
       (matched_lenders report ++ unmatched_lenders report)) /\
  (forall i lender analysis v,
     lenders !! i = Some lender ->
     analysis_of w i application_data lender = Ok (PDict analysis) ->
     adjust_confidence (default (PBool false) (analysis !! txt "overall_match"))
       (reported_confidence analysis) = Ok v ->
     Pydantic.unit_interval_field v = None ->
     exists e, _evaluate_single_lender w i application_data lender = Raise e).
Proof.
  split.
  - eexists. split; [apply evaluate_application_eq|].
    cbn [matched_lenders unmatched_lenders].
    apply List.Forall_forall. intros j [Hin|Hin]%in_app_iff;
      apply in_sort_filter in Hin as [Hin _];
      by apply (successes_In_unit w application_data lenders).
  - intros i lender analysis v _ Ha Hadj Hv.
    destruct (_evaluate_single_lender w i application_data lender) as [j|e] eqn:E; [|eauto].
    apply evaluate_single_Ok in E as (analysis' & Ha' & Hc).
    rewrite Ha in Ha'. injection Ha' as <-.
    apply convert_Ok in Hc as (d & v' & [= <-] & Hadj' & Hv').
    rewrite Hadj in Hadj'. injection Hadj' as <-. congruence.
Qed.

(** ** A payload without verdict and confidence *)

Lemma convert_defaults (lender_id : text) (lender_name : pyval) (analysis : gmap text pyval) :
  analysis !! txt "overall_match" = None ->
  analysis !! txt "confidence_score" = None ->
  _convert_to_lender_match_dto lender_id lender_name (PDict analysis) =
  _convert_to_lender_match_dto lender_id lender_name
    (PDict (<[txt "overall_match" := PBool false]>
              (<[txt "confidence_score" := PFloat Float.half]> analysis))).
Proof.
  intros Hm Hc.
  set (spelled := <[txt "overall_match" := PBool false]>
                    (<[txt "confidence_score" := PFloat Float.half]> analysis)).
  assert (forall key, key <> txt "overall_match" -> key <> txt "confidence_score" ->
                      spelled !! key = analysis !! key) as Hother.
  { intros key H1 H2. subst spelled. by rewrite !lookup_insert_ne. }
  assert (default (PBool false) (spelled !! txt "overall_match")
          = default (PBool false) (analysis !! txt "overall_match")) as E1.
  { subst spelled. by rewrite lookup_insert_eq, Hm. }
  assert (default (PFloat Float.half) (spelled !! txt "confidence_score")
          = default (PFloat Float.half) (analysis !! txt "confidence_score")) as E2.
  { subst spelled. rewrite lookup_insert_ne by (intros H; vm_compute in H; discriminate H).
    by rewrite lookup_insert_eq, Hc. }
  unfold _convert_to_lender_match_dto, Py.get.
  rewrite E1, E2, !Hother by (intros H; vm_compute in H; discriminate H).
  reflexivity.
Qed.

(** C10 -- a payload that decodes to a [dict] without [overall_match] and
    without [confidence_score] is read as (false, 0.5): it is converted as
    the same payload with these two values spelled out would be, a judgment
    it yields has confidence exactly 0.4, and that judgment is in
    [unmatched_lenders] and not in [matched_lenders]. *)
Theorem missing_verdict_and_confidence (w : world) (application_id : text)
    (application_data : pyval) (lenders : list (gmap text pyval)) (i : nat)
    (lender analysis : gmap text pyval) :
  lenders !! i = Some lender ->
  analysis_of w i application_data lender = Ok (PDict analysis) ->
  analysis !! txt "overall_match" = None ->
  analysis !! txt "confidence_score" = None ->
  verdict analysis = false /\
  reported_confidence analysis = PFloat Float.half /\
  _evaluate_single_lender w i application_data lender =
    try_except
      (_convert_to_lender_match_dto (lender_id_of w lender) (lender_name_of lender)
         (PDict (<[txt "overall_match" := PBool false]>
                   (<[txt "confidence_score" := PFloat Float.half]> analysis))))
      wrap_failure /\
  (forall j,
     _evaluate_single_lender w i application_data lender = Ok j ->
     confidence_score j = Float.c0_4 /\
     exists report,
       evaluate_application w application_id application_data lenders = Ok report /\
       In j (unmatched_lenders report) /\ ~ In j (matched_lenders report)).
Proof.
  intros Hl Ha Hm Hc.
  assert (verdict analysis = false) as Hv by (unfold verdict; by rewrite Hm).
  assert (reported_confidence analysis = PFloat Float.half) as Hr
    by (unfold reported_confidence; by rewrite Hc).
  split; [exact Hv|]. split; [exact Hr|]. split.
  - rewrite <- convert_defaults by done.
    unfold analysis_of in Ha. unfold _evaluate_single_lender.
    destruct (get_eligibility_analysis_prompt w application_data (lender_name_of lender)
                (default (PList []) (lender !! txt "criteria"))) as [prompt|e]; [|discriminate].
    simpl in *. by rewrite Ha.
  - intros j Hj. split.
    + pose proof Hj as (analysis' & Ha' & Hconv)%evaluate_single_Ok.
      rewrite Ha in Ha'. injection Ha' as <-.
      apply convert_Ok in Hconv as (d & v & [= <-] & Hadj & Hu).
      rewrite Hm, Hr in Hadj. injection Hadj as <-. simpl in Hu. by injection Hu.
    + destruct (judgment_placement w application_id application_data lenders i lender j Hl Hj)
        as (report & He & H1 & H2).
      pose proof (evaluated_verdict w i application_data lender analysis j Ha Hj) as Hverdict.
      exists report. split; [exact He|]. split; [apply H2; congruence|].
      intros H%H1. congruence.
Qed.

(** ** The properties on concrete inputs *)

Lemma ranking_is_descending_and_stable_witness :
  Permutation [2; 0; 1]%nat (seq 0 (length Sample.abc)) /\
  gather_by_completion (outcomes Sample.reference PNone Sample.abc) [2; 0; 1]%nat =
    Some (outcomes Sample.reference PNone Sample.abc) /\
  exists report,
    evaluate_application Sample.reference (txt "app-1") PNone Sample.abc = Ok report /\
    matched_lenders report =
      [Sample.judgment "a" "A" Sample.c0_9; Sample.judgment "b" "B" Sample.c0_9] /\
    unmatched_lenders report = [Sample.judgment "c" "C" Sample.c0_3].
Proof.
  assert (Permutation [2; 0; 1]%nat (seq 0 (length Sample.abc))) as Hp.
  { apply perm_trans with [0; 2; 1]%nat; [apply perm_swap | apply perm_skip, perm_swap]. }
  destruct (ranking_is_descending_and_stable Sample.reference (txt "app-1") PNone Sample.abc)
    as (report & He & _ & _ & _ & _ & Hg).
  split; [exact Hp|]. split; [exact (Hg _ Hp)|].
  exists report. split; [exact He|].
  vm_compute in He. injection He as <-. split; reflexivity.
Defined.

Lemma partition_agrees_with_verdict_witness :
  Sample.abc !! 2%nat = Some (Sample.lender "c" "C") /\
  analysis_of Sample.reference 2 PNone (Sample.lender "c" "C")
    = Ok (PDict (<[txt "overall_match" := PBool false]>
                   {[ txt "confidence_score" := PFloat Sample.c0_3 ]})) /\
  _evaluate_single_lender Sample.reference 2 PNone (Sample.lender "c" "C")
    = Ok (Sample.judgment "c" "C" Sample.c0_3) /\
  exists report,
    evaluate_application Sample.reference (txt "app-1") PNone Sample.abc = Ok report /\
    (In (Sample.judgment "c" "C" Sample.c0_3) (matched_lenders report) <->
     verdict (<[txt "overall_match" := PBool false]>
                {[ txt "confidence_score" := PFloat Sample.c0_3 ]}) = true) /\
    (In (Sample.judgment "c" "C" Sample.c0_3) (unmatched_lenders report) <->
     verdict (<[txt "overall_match" := PBool false]>
                {[ txt "confidence_score" := PFloat Sample.c0_3 ]}) = false).
Proof.
  assert (Sample.abc !! 2%nat = Some (Sample.lender "c" "C")) as H1 by reflexivity.
  assert (analysis_of Sample.reference 2 PNone (Sample.lender "c" "C")
          = Ok (PDict (<[txt "overall_match" := PBool false]>
                         {[ txt "confidence_score" := PFloat Sample.c0_3 ]}))) as H2
    by (vm_compute; reflexivity).
  assert (_evaluate_single_lender Sample.reference 2 PNone (Sample.lender "c" "C")
          = Ok (Sample.judgment "c" "C" Sample.c0_3)) as H3 by (vm_compute; reflexivity).
  split; [exact H1|]. split; [exact H2|]. split; [exact H3|].
  destruct (partition_agrees_with_verdict Sample.reference (txt "app-1") PNone Sample.abc
              2 _ _ _ H1 H2 H3) as (report & He & Hm & Hu & _).
  exists report. by split.
Defined.

Lemma confidence_is_in_unit_interval_witness :
  [Sample.lender "a" "A"] !! 0%nat = Some (Sample.lender "a" "A") /\
  analysis_of Sample.out_of_range 0 PNone (Sample.lender "a" "A")
    = Ok (PDict Sample.yes_and_1_5) /\
  adjust_confidence (default (PBool false) (Sample.yes_and_1_5 !! txt "overall_match"))
    (reported_confidence Sample.yes_and_1_5) = Ok (PFloat Sample.c1_5) /\
  Pydantic.unit_interval_field (PFloat Sample.c1_5) = None /\
  exists e, _evaluate_single_lender Sample.out_of_range 0 PNone (Sample.lender "a" "A") = Raise e.
Proof.
  assert ([Sample.lender "a" "A"] !! 0%nat = Some (Sample.lender "a" "A")) as H1 by reflexivity.
  assert (analysis_of Sample.out_of_range 0 PNone (Sample.lender "a" "A")
          = Ok (PDict Sample.yes_and_1_5)) as H2 by (vm_compute; reflexivity).
  assert (adjust_confidence (default (PBool false) (Sample.yes_and_1_5 !! txt "overall_match"))
            (reported_confidence Sample.yes_and_1_5) = Ok (PFloat Sample.c1_5)) as H3
    by (vm_compute; reflexivity).
  assert (Pydantic.unit_interval_field (PFloat Sample.c1_5) = None) as H4
    by (vm_compute; reflexivity).
  split; [exact H1|]. split; [exact H2|]. split; [exact H3|]. split; [exact H4|].
  destruct (confidence_is_in_unit_interval Sample.out_of_range (txt "app-1") PNone
              [Sample.lender "a" "A"]) as [_ H].
  exact (H 0%nat _ _ _ H1 H2 H3 H4).
Defined.

Lemma missing_verdict_and_confidence_witness :
  [Sample.lender "a" "A"] !! 0%nat = Some (Sample.lender "a" "A") /\
  analysis_of Sample.silent 0 PNone (Sample.lender "a" "A") = Ok (PDict ∅) /\
  (∅ : gmap text pyval) !! txt "overall_match" = None /\
  (∅ : gmap text pyval) !! txt "confidence_score" = None /\
  _evaluate_single_lender Sample.silent 0 PNone (Sample.lender "a" "A")
    = Ok (Sample.judgment "a" "A" Float.c0_4) /\
  confidence_score (Sample.judgment "a" "A" Float.c0_4) = Float.c0_4 /\
  exists report,
    evaluate_application Sample.silent (txt "app-1") PNone [Sample.lender "a" "A"] = Ok report /\
    In (Sample.judgment "a" "A" Float.c0_4) (unmatched_lenders report) /\
    ~ In (Sample.judgment "a" "A" Float.c0_4) (matched_lenders report).
Proof.
  assert ([Sample.lender "a" "A"] !! 0%nat = Some (Sample.lender "a" "A")) as H1 by reflexivity.
  assert (analysis_of Sample.silent 0 PNone (Sample.lender "a" "A") = Ok (PDict ∅)) as H2
    by (vm_compute; reflexivity).
  assert ((∅ : gmap text pyval) !! txt "overall_match" = None) as H3 by reflexivity.
  assert ((∅ : gmap text pyval) !! txt "confidence_score" = None) as H4 by reflexivity.
  assert (_evaluate_single_lender Sample.silent 0 PNone (Sample.lender "a" "A")
          = Ok (Sample.judgment "a" "A" Float.c0_4)) as H5 by (vm_compute; reflexivity).
  split; [exact H1|]. split; [exact H2|]. split; [exact H3|]. split; [exact H4|].
  split; [exact H5|].
  destruct (missing_verdict_and_confidence Sample.silent (txt "app-1") PNone
              [Sample.lender "a" "A"] 0 _ _ H1 H2 H3 H4) as (_ & _ & _ & H).
  exact (H _ H5).
Defined.

(** The scenario of the isolation property: the request for B meets a
    network fault, A and C succeed. *)
Example isolation_of_a_network_fault :
  outcomes Sample.b_down PNone Sample.abc =
    [Ok (Sample.judgment "a" "A" Sample.c0_9);
     Raise (EvaluationError TransportError);
     Ok (Sample.judgment "c" "C" Sample.c0_9)] /\
  evaluate_application Sample.b_down (txt "app-1") PNone Sample.abc =
    Ok {| application_id := txt "app-1";
          matched_lenders :=
            [Sample.judgment "a" "A" Sample.c0_9; Sample.judgment "c" "C" Sample.c0_9];
          unmatched_lenders := [];
          analysis_timestamp := 0;
          total_lenders_evaluated := 3 |}.
Proof. split; vm_compute; reflexivity. Qed.

(** The literals of the source and of the examples are the binary64 values
    of their decimal spelling, and the reference decoder reads them so. *)
Example literals_are_binary64 :
  Prim2SF 0.5 = Float.half /\ Prim2SF 0.4 = Float.c0_4 /\ Prim2SF 0.6 = Float.c0_6 /\
  Prim2SF 1 = Float.one /\ Prim2SF 0.9 = Sample.c0_9 /\ Prim2SF 0.3 = Sample.c0_3 /\
  Prim2SF 0.8 = Sample.c0_8 /\ Prim2SF 0.1 = Sample.c0_1 /\ Prim2SF 1.5 = Sample.c1_5.
Proof. repeat split; vm_compute; reflexivity. Qed.

Example decoder_reads_literals :
  Json.loads (txt "0.4") = Ok (PFloat Float.c0_4) /\
  Json.loads (txt "0.6") = Ok (PFloat Float.c0_6) /\
  Json.loads (txt "5e-1") = Ok (PFloat Float.half) /\
  Json.loads (txt "1") = Ok (PInt 1) /\
  Json.loads (txt "[1,]") = Raise JSONDecodeError.
Proof. repeat split; vm_compute; reflexivity. Qed.
